(** * Veriteem remote wallet: wallet life cycle, registry and signing driver

    A shallow embedding of the Go package [remotewallet] (the wallet state
    machine, the [VeriteemDriver] and the [RemoteWallet] registry), with the
    properties of its specification stated and proved over it.  The methods
    embedded are those the properties are about and those they call.

    Conventions of the embedding
    - a Go method on a pointer receiver becomes a function that takes the
      receiver's state and returns the new state with the results;
    - a Go [error] result is an [option error] ([None] is [nil]);
    - a pointer result that may be [nil] is an [option];
    - a run-time panic is the outcome [Panics];
    - the read/write state lock is not represented in the sequential
      functions: each of them is the body executed while the lock is held.
      The exception is [Open], whose [Lock] a heartbeat goroutine that never
      leaves its reader section keeps from returning: [wallet_Open] has the
      lock, [wallet_Open_locked] is the part of [Open] under it. *)

From Stdlib Require Import ZArith.
From Stdlib.Strings Require Import Byte.
From stdpp Require Import base option list gmap strings.

Open Scope Z_scope.

#[global] Instance byte_eq_dec : EqDecision byte := Byte.byte_eq_dec.

(** ** Go's built-in [error]

    The sentinels of package [accounts] and of this package are compared by
    identity in Go, so each is a constructor.  [fmt_Errorf] is an error built
    by [fmt.Errorf] from its formatted message.  [library_error] is an error
    value produced by [net/http], [encoding/json] or [core/types]. *)
Inductive error : Type :=
| ErrUnknownAccount
| ErrWalletAlreadyOpen
| ErrNotSupported
| errLedgerReplyInvalidHeader
| errLedgerInvalidVersionReply
| fmt_Errorf (msg : string)
| library_error (msg : string).

#[global] Instance error_eq_dec : EqDecision error.
Proof. solve_decision. Defined.

(** A call either returns or panics. *)
Inductive outcome (A : Type) : Type :=
| Returns (a : A)
| Panics.
Arguments Returns {A} a.
Arguments Panics {A}.

(** A channel created by [make] is known by its identity. *)
Definition chan := nat.

(** ** Package [common] *)
Module common.
(** [common.Address] is [[20]byte]; [Bytes] is the slice of the array. *)
Definition Address := list byte.
Definition Bytes (a : Address) : list byte := a.
(** [common.Address{}] *)
Definition zeroAddress : Address := replicate 20 x00.
End common.

(** [bytes.Equal] *)
Definition bytes_Equal (a b : list byte) : bool := bool_decide (a = b).

(** ** Package [accounts] *)
Module accounts.
Record URL := { Scheme : string; Path : string }.
Record Account := { Account_Address : common.Address; Account_URL : URL }.
Definition DerivationPath := list Z.

Inductive WalletEventType := WalletArrived | WalletOpened | WalletDropped.

(** [Wallet] is the address of the wallet object the event is about. *)
Record WalletEvent := { Wallet : nat; Kind : WalletEventType }.

#[global] Instance URL_eq_dec : EqDecision URL.
Proof. solve_decision. Defined.
#[global] Instance Account_eq_dec : EqDecision Account.
Proof. solve_decision. Defined.
#[global] Instance WalletEventType_eq_dec : EqDecision WalletEventType.
Proof. solve_decision. Defined.
#[global] Instance WalletEvent_eq_dec : EqDecision WalletEvent.
Proof. solve_decision. Defined.
End accounts.
Import accounts.

(** ** Package [types] *)
Module types.
(** The fields of a transaction the driver reads.  [Recipient] is [nil]
      for a contract creation. *)
Record Transaction := {
    AccountNonce : Z;
    Price : Z;
    GasLimit : Z;
    Recipient : option common.Address;
    Amount : Z;
    Payload : list byte;
    sig_V : Z; sig_R : Z; sig_S : Z
  }.
#[global] Instance Transaction_eq_dec : EqDecision Transaction.
Proof. solve_decision. Defined.
End types.
Import types.

(** ** The [driver] interface

    [D] is the state of the object behind the interface value.  The methods
    the wallet calls are modelled ([Status] is not used by any of them). *)
Class driver (D : Type) := {
  driver_Open : string -> D -> D * option error;
  driver_Close : D -> D * option error;
  driver_Heartbeat : D -> D * option error;
  driver_Derive : DerivationPath -> D -> D * (common.Address * option error);
  driver_SignTx : Account -> Transaction -> option Z -> D ->
                  outcome (D * (common.Address * option Transaction * option error));
  driver_ReadAccounts : D -> D * (list Account * option error)
}.

(** The calls a wallet makes to its driver, with what each returned.  The
    wallet keeps them in [w_calls], a ghost field that is only ever appended
    to: "the driver is not invoked" is "[w_calls] does not grow". *)
Inductive driver_call : Type :=
| CallOpen (passphrase : string) (ret : option error)
| CallClose (ret : option error)
| CallHeartbeat (ret : option error)
| CallSignTx (account : Account) (tx : Transaction) (chainID : option Z)
             (ret : common.Address * option Transaction * option error)
| CallReadAccounts (ret : list Account * option error).

(** What [go] statements start. *)
Inductive goroutine : Type :=
| go_heartbeat
| go_updateFeed_Send (ev : WalletEvent).

Section Wallet.
Context {D : Type} `{!driver D}.
(** [common.Address.Hex], the checksummed hexadecimal form. *)
Variable Address_Hex : common.Address -> string.

(** ** [type wallet struct] *)
Record wallet := {
    w_url : URL;
    w_driver : D;
    w_accounts : list Account;
    w_paths : option (list (common.Address * DerivationPath));
    w_healthQuit : option chan;
    (** [nil], or a channel that holds that many tokens *)
    w_commsLock : option nat;
    w_calls : list driver_call
  }.

Definition set_driver (d : D) (c : driver_call) (w : wallet) : wallet :=
    {| w_url := w_url w; w_driver := d; w_accounts := w_accounts w;
       w_paths := w_paths w; w_healthQuit := w_healthQuit w;
       w_commsLock := w_commsLock w; w_calls := w_calls w ++ [c] |}.

Definition set_accounts (l : list Account) (w : wallet) : wallet :=
    {| w_url := w_url w; w_driver := w_driver w; w_accounts := l;
       w_paths := w_paths w; w_healthQuit := w_healthQuit w;
       w_commsLock := w_commsLock w; w_calls := w_calls w |}.

Definition set_paths (p : option (list (common.Address * DerivationPath)))
      (w : wallet) : wallet :=
    {| w_url := w_url w; w_driver := w_driver w; w_accounts := w_accounts w;
       w_paths := p; w_healthQuit := w_healthQuit w;
       w_commsLock := w_commsLock w; w_calls := w_calls w |}.

Definition set_healthQuit (q : option chan) (w : wallet) : wallet :=
    {| w_url := w_url w; w_driver := w_driver w; w_accounts := w_accounts w;
       w_paths := w_paths w; w_healthQuit := q;
       w_commsLock := w_commsLock w; w_calls := w_calls w |}.

Definition set_commsLock (c : option nat) (w : wallet) : wallet :=
    {| w_url := w_url w; w_driver := w_driver w; w_accounts := w_accounts w;
       w_paths := w_paths w; w_healthQuit := w_healthQuit w;
       w_commsLock := c; w_calls := w_calls w |}.

(** [func (w *wallet) Contains(account accounts.Account) bool]: the loop
      over [w.accounts]. *)
Fixpoint Contains_loop (acctBytes : list byte) (l : list Account) : bool :=
    match l with
    | [] => false
    | acct :: rest =>
        let cmpBytes := common.Bytes (Account_Address acct) in
        if bytes_Equal acctBytes cmpBytes then true
        else Contains_loop acctBytes rest
    end.

Definition wallet_Contains (account : Account) (w : wallet) : bool :=
    let acctBytes := common.Bytes (Account_Address account) in
    Contains_loop acctBytes (w_accounts w).

(** The error built at line 326 of the wallet source. *)
Definition signer_mismatch (expected got : common.Address) : error :=
    fmt_Errorf ("signer mismatch: expected " +:+ Address_Hex expected +:+
                ", got " +:+ Address_Hex got).

(** [func (w *wallet) SignTx(account, tx, chainID)], returning the signed
    transaction (a pointer) and an error. *)
Definition wallet_SignTx (account : Account) (tx : Transaction)
      (chainID : option Z) (w : wallet)
      : outcome (wallet * (option Transaction * option error)) :=
    if bool_decide (wallet_Contains account w = false) then
      Returns (w, (None, Some ErrUnknownAccount))
    else
      match driver_SignTx account tx chainID (w_driver w) with
      | Panics => Panics
      | Returns (d, (sender, signedTx, err)) =>
          let w := set_driver d
                     (CallSignTx account tx chainID (sender, signedTx, err)) w in
          match err with
          | Some e => Returns (w, (None, Some e))
          | None =>
              if bool_decide (sender <> Account_Address account) then
                Returns (w, (None, Some (signer_mismatch
                                           (Account_Address account) sender)))
              else Returns (w, (signedTx, None))
          end
      end.

(** [SignTxWithPassphrase] drops the passphrase. *)
Definition wallet_SignTxWithPassphrase (account : Account)
      (passphrase : string) (tx : Transaction) (chainID : option Z)
      (w : wallet) :=
    wallet_SignTx account tx chainID w.

(** [func (w *wallet) Accounts() []accounts.Account]: the cached list is
    assigned whatever the driver returned, also when it failed. *)
Definition wallet_Accounts (w : wallet) : wallet * list Account :=
  let '(d, (accts, err)) := driver_ReadAccounts (w_driver w) in
  let w := set_driver d (CallReadAccounts (accts, err)) w in
  let w := set_accounts accts w in
  match err with
  | Some _ => (w, [])
  | None => (w, w_accounts w)
  end.

(** [func (w *wallet) Open(passphrase string) error], from the statement
    after [w.stateLock.Lock()] to the end: what [Open] does once it holds
    the state lock ([wallet_Open], below, is the whole method).  [self] is
    the address of the wallet object and [hq] the channel that [make]
    returns; the last component lists the goroutines started. *)
Definition wallet_Open_locked (self : nat) (hq : chan) (passphrase : string)
    (w : wallet) : wallet * option error * list goroutine :=
  if bool_decide (w_paths w <> None) then (w, Some ErrWalletAlreadyOpen, [])
  else
    let '(d, err) := driver_Open passphrase (w_driver w) in
    let w := set_driver d (CallOpen passphrase err) w in
    match err with
    | Some e => (w, Some e, [])
    | None =>
        let w := set_paths (Some []) w in
        let w := set_healthQuit (Some hq) w in
        (w, None,
         [go_heartbeat;
          go_updateFeed_Send {| Wallet := self; Kind := WalletOpened |}])
    end.

(** [func (w *wallet) close() error]: the result of the driver's [Close] is
    dropped. *)
Definition wallet_close (w : wallet) : wallet * option error :=
  let w := set_paths None (set_accounts [] w) in
  let '(d, ret) := driver_Close (w_driver w) in
  let w := set_driver d (CallClose ret) w in
  (w, None).

(** ** The heartbeat goroutine

    The goroutine is a function of what its [select] yields, in order:
    a reply channel sent on [w.healthQuit], or the timer. *)
Inductive select_outcome : Type :=
| quit_request (errc : chan)
| heartbeatCycle_elapsed.

(** How the loop of [heartbeat] is left. *)
Inductive loop_end : Type :=
| loop_in_select
| loop_on_commsLock
| loop_exit (errc : option chan) (err : option error)
            (rest : list select_outcome).

(** The [for errc == nil && err == nil] loop.  A receive from a [nil]
    channel never proceeds: with [w.healthQuit] nil a request is not taken,
    and with [w.commsLock] nil (or empty) the goroutine stays on
    [<-w.commsLock], the read lock held. *)
Fixpoint heartbeat_loop (evs : list select_outcome) (errc : option chan)
    (err : option error) (w : wallet) : wallet * loop_end :=
  if bool_decide (errc = None) && bool_decide (err = None) then
    match evs with
    | [] => (w, loop_in_select)
    | quit_request c :: evs =>
        match w_healthQuit w with
        | Some _ => heartbeat_loop evs (Some c) err w
        | None => heartbeat_loop evs errc err w
        end
    | heartbeatCycle_elapsed :: evs =>
        match w_commsLock w with
        | None | Some O => (w, loop_on_commsLock)
        | Some (S n) =>
            let w := set_commsLock (Some n) w in
            let '(d, err) := driver_Heartbeat (w_driver w) in
            let w := set_driver d (CallHeartbeat err) w in
            let w := set_commsLock (Some (S n)) w in
            let w := match err with
                     | Some _ => fst (wallet_close w)
                     | None => w
                     end in
            let err : option error := None in
            heartbeat_loop evs errc err w
        end
    end
  else (w, loop_exit errc err evs).

(** [errc = <-w.healthQuit] outside a [select]: the next request. *)
Fixpoint recv_healthQuit (evs : list select_outcome) : option chan :=
  match evs with
  | [] => None
  | quit_request c :: _ => Some c
  | heartbeatCycle_elapsed :: evs => recv_healthQuit evs
  end.

(** Where a goroutine is when its run is observed. *)
Inductive task_status : Type :=
| task_in_select
| task_on_commsLock
| task_on_healthQuit
| task_on_send
| task_returned.

(** [func (w *wallet) heartbeat()]: the wallet it leaves, where it is, and
    the values it sent with the channel each was sent on. *)
Definition heartbeat (evs : list select_outcome) (w : wallet)
    : wallet * task_status * list (chan * option error) :=
  match heartbeat_loop evs None None w with
  | (w, loop_in_select) => (w, task_in_select, [])
  | (w, loop_on_commsLock) => (w, task_on_commsLock, [])
  | (w, loop_exit errc err rest) =>
      match err with
      | Some _ =>
          match (match w_healthQuit w with
                 | Some _ => recv_healthQuit rest
                 | None => None
                 end) with
          | Some c => (w, task_returned, [(c, err)])
          | None => (w, task_on_healthQuit, [])
          end
      | None =>
          match errc with
          | Some c => (w, task_returned, [(c, err)])
          | None => (w, task_on_send, [])
          end
      end
  end.

(** ** The state lock and [Open]

    [w.stateLock.Lock()] returns once no reader holds the lock.  The reader
    sections of the methods end by themselves; the one of the heartbeat
    goroutine ([RLock] to [RUnlock] around [<-w.commsLock]) does not end
    while the goroutine is on that receive.  [tasks] tells where the
    heartbeat goroutines of the wallet are; the result is whether [Lock]
    returns. *)
Definition stateLock_Lock (tasks : list task_status) : bool :=
  forallb (fun t => match t with
                    | task_on_commsLock => false
                    | _ => true
                    end) tasks.

(** [func (w *wallet) Open(passphrase string) error], the whole method:
    [None] when [w.stateLock.Lock()] does not return, so that [Open] does
    not return either. *)
Definition wallet_Open (tasks : list task_status) (self : nat) (hq : chan)
    (passphrase : string) (w : wallet)
    : option (wallet * option error * list goroutine) :=
  if stateLock_Lock tasks then Some (wallet_Open_locked self hq passphrase w)
  else None.

(** The fields of the Go struct: the wallet without the record of driver
    calls. *)
Definition wallet_fields (w : wallet) :=
  (w_url w, w_driver w, w_accounts w, w_paths w, w_healthQuit w,
   w_commsLock w).

(** ** [Close]

    [hQuit <- errc; herr = <-errc] is an exchange with whoever receives on
    the channel: [handshake errc w] is the wallet at the time the reply
    arrives with the reply, or [None] when no reply ever arrives, in which
    case [Close] does not return. *)
Definition Close_result (cerr herr : option error) : option error :=
  match cerr with
  | Some e => Some e
  | None =>
      match herr with
      | Some e => Some e
      | None => None
      end
  end.

(** [func (w *wallet) Close() error] *)
Definition wallet_Close (errc : chan)
    (handshake : chan -> wallet -> option (wallet * option error))
    (w : wallet) : option (wallet * option error) :=
  let hQuit := w_healthQuit w in
  match (match hQuit with
         | Some _ => handshake errc w
         | None => Some (w, None)
         end) with
  | None => None
  | Some (w, herr) =>
      let w := set_healthQuit None w in
      let '(w, cerr) := wallet_close w in
      Some (w, Close_result cerr herr)
  end.

(** The exchange when the receiver is the heartbeat goroutine, which first
    sees the timer outcomes [before]. *)
Definition heartbeat_handshake (before : list select_outcome) (errc : chan)
    (w : wallet) : option (wallet * option error) :=
  match heartbeat (before ++ [quit_request errc]) w with
  | (w, task_returned, [(c, err)]) =>
      if bool_decide (c = errc) then Some (w, err) else None
  | _ => None
  end.

End Wallet.

Arguments wallet D : clear implicits.

(** ** The signing server and the Veriteem driver *)

(** [type serverCache struct] *)
Record serverCache := { all : list Account; lastMod : Z }.

(** [type SigningServer struct] *)
Record SigningServer := {
  ss_serverURL : string;
  ss_scheme : string;
  ss_connected : bool;
  ss_failed : bool;
  ss_cache : serverCache
}.

(** [type responseJSON struct] *)
Record responseJSON := { Status : string; Accounts : list string }.

(** [type JsonTx struct]; [ChainId] is a pointer and may be [nil]. *)
Record JsonTx := {
  JsonTx_Account : string;
  JsonTx_To : string;
  JsonTx_Data : string;
  JsonTx_Nonce : Z;
  JsonTx_GasLimit : Z;
  JsonTx_Value : Z;
  JsonTx_GasPrice : Z;
  JsonTx_ChainId : option Z
}.

(** [type JsonRx struct] *)
Record JsonRx := {
  JsonRx_R : string;
  JsonRx_S : string;
  JsonRx_V : string;
  JsonRx_Hash : string
}.

(** [type JsonSign struct] *)
Record JsonSign := {
  JsonSign_R : string;
  JsonSign_S : string;
  JsonSign_V : string;
  JsonSign_To : string;
  JsonSign_Nonce : string;
  JsonSign_GasLimit : string;
  JsonSign_Value : string;
  JsonSign_GasPrice : string;
  JsonSign_ChainId : string;
  JsonSign_Data : string;
  JsonSign_Hash : string
}.

(** What the package uses of the Go libraries and of the network.  [World]
    is the state of the network and of the remote server.
    - [http_valid_url]: whether [http.NewRequest] accepts the URL (it
      returns a [nil] request otherwise);
    - [http_Post]: [client.Do] followed by [ioutil.ReadAll], whose own error
      the caller drops;
    - [http_Get]: [netClient.Get] followed by [ioutil.ReadAll]; the caller
      treats the two errors alike;
    - [Transaction_UnmarshalJSON] fills the transaction it is called on. *)
Class Library (World : Type) := {
  hex_EncodeToString : list byte -> string;
  Address_Hex : common.Address -> string;
  common_HexToAddress : string -> common.Address;
  fmt_Sprintf_0x_x : Z -> string;
  big_Int_String : option Z -> string;
  json_Marshal_JsonTx : JsonTx -> list byte * option error;
  json_Unmarshal_JsonRx : list byte -> JsonRx * option error;
  json_Marshal_JsonSign : JsonSign -> list byte * option error;
  json_Unmarshal_responseJSON : list byte -> responseJSON;
  Transaction_UnmarshalJSON :
    list byte -> Transaction -> Transaction * option error;
  http_valid_url : string -> bool;
  http_Post : string -> list byte -> World -> World * (list byte * option error);
  http_Get : string -> World -> World * (list byte * option error)
}.

(** [type VeriteemDriver struct] *)
Record VeriteemDriver := {
  signingServer : SigningServer;
  version : byte * byte * byte;
  failure : option error
}.

Section Veriteem.
Context {World : Type} `{!Library World}.

(** [func (sc *SigningServer) ReadAccountsFromServer()]: the loop that
    converts the names received.  The receiver is the address of a field of
    the driver, so the [sc == nil] branch is not taken; the error of
    [json.Unmarshal] is dropped by the source. *)
Definition convert_accounts (sc : SigningServer) (names : list string)
    : list Account :=
  map (fun acct =>
         let acctH := common_HexToAddress acct in
         {| Account_Address := acctH;
            Account_URL := {| Scheme := ss_scheme sc;
                              Path := ss_serverURL sc |} |}) names.

Definition SigningServer_ReadAccountsFromServer (sc : SigningServer)
    (net : World) : World * (list Account * option error) :=
  let request := ss_serverURL sc +:+ "/ListAccounts" in
  let '(net, (buf, err)) := http_Get request net in
  match err with
  | Some e => (net, ([], Some e))
  | None =>
      let accountListJs := json_Unmarshal_responseJSON buf in
      (net, (convert_accounts sc (Accounts accountListJs), None))
  end.

(** [func (sc *SigningServer) SignTx(tx []byte) ([]byte, error)]: setting a
    header of a [nil] request panics. *)
Definition SigningServer_SignTx (tx : list byte) (sc : SigningServer)
    (net : World) : outcome (World * (list byte * option error)) :=
  let url := ss_serverURL sc +:+ "/SignTx" in
  if http_valid_url url then
    let '(net, (body, err)) := http_Post url tx net in
    match err with
    | Some e => Returns (net, ([], Some e))
    | None => Returns (net, (body, None))
    end
  else Panics.

(** [func newVeriteemDriver(signingServer SigningServer) driver] *)
Definition newVeriteemDriver (server : SigningServer) : VeriteemDriver :=
  {| signingServer := server; version := (x00, x00, x00); failure := None |}.

Definition set_version (v : byte * byte * byte) (w : VeriteemDriver)
    : VeriteemDriver :=
  {| signingServer := signingServer w; version := v; failure := failure w |}.

Definition set_failure (f : option error) (w : VeriteemDriver)
    : VeriteemDriver :=
  {| signingServer := signingServer w; version := version w; failure := f |}.

(** [func (w *VeriteemDriver) ledgerVersion() ([3]byte, error)] *)
Definition VeriteemDriver_ledgerVersion (w : VeriteemDriver)
    : (byte * byte * byte) * option error :=
  let version := (x01, x00, x00) in
  (version, None).

(** [func (w *VeriteemDriver) offline() bool] *)
Definition VeriteemDriver_offline (w : VeriteemDriver) : bool :=
  bool_decide (version w = (x00, x00, x00)).

(** [func (w *VeriteemDriver) Open(passphrase string) error] *)
Definition VeriteemDriver_Open (passphrase : string) (w : VeriteemDriver)
    : VeriteemDriver * option error :=
  let '(version, err) := VeriteemDriver_ledgerVersion w in
  match err with
  | Some e => (set_version (x00, x00, x00) w, Some e)
  | None => (set_version version w, None)
  end.

(** [func (w *VeriteemDriver) Close() error] *)
Definition VeriteemDriver_Close (w : VeriteemDriver)
    : VeriteemDriver * option error :=
  (set_version (x00, x00, x00) w, None).

(** [func (w *VeriteemDriver) Heartbeat() error] *)
Definition VeriteemDriver_Heartbeat (w : VeriteemDriver)
    : VeriteemDriver * option error :=
  let '(_, err) := VeriteemDriver_ledgerVersion w in
  if bool_decide (err <> None)
     && bool_decide (err <> Some errLedgerInvalidVersionReply) then
    (set_failure err w, err)
  else (w, None).

(** [func (w *VeriteemDriver) Derive(path)] *)
Definition VeriteemDriver_Derive (path : DerivationPath) (w : VeriteemDriver)
    : VeriteemDriver * (common.Address * option error) :=
  (w, (common.zeroAddress, Some ErrNotSupported)).

(** [func (w *VeriteemDriver) SignTx(account, tx, chainID)].  [tx.To()] is
    [nil] for a contract creation, and [Hex] on it panics. *)
Definition VeriteemDriver_SignTx (account : Account) (tx : Transaction)
    (chainID : option Z) (s : VeriteemDriver * World)
    : outcome ((VeriteemDriver * World) *
               (common.Address * option Transaction * option error)) :=
  let '(w, net) := s in
  let Account := "0x" +:+ hex_EncodeToString
                            (common.Bytes (Account_Address account)) in
  let Data := "0x" +:+ hex_EncodeToString (Payload tx) in
  match Recipient tx with
  | None => Panics
  | Some to =>
      let JsonMsg :=
        {| JsonTx_Account := Account; JsonTx_To := Address_Hex to;
           JsonTx_Data := Data; JsonTx_Nonce := AccountNonce tx;
           JsonTx_GasLimit := GasLimit tx; JsonTx_Value := Amount tx;
           JsonTx_GasPrice := Price tx; JsonTx_ChainId := chainID |} in
      let '(jsonPayload, errj) := json_Marshal_JsonTx JsonMsg in
      match errj with
      | Some e => Returns ((w, net), (common.zeroAddress, None, Some e))
      | None =>
          match SigningServer_SignTx jsonPayload (signingServer w) net with
          | Panics => Panics
          | Returns (net, (jsonResponse, errj)) =>
              match errj with
              | Some e =>
                  Returns ((w, net), (common.zeroAddress, None, Some e))
              | None =>
                  let '(jsonrx, errj) := json_Unmarshal_JsonRx jsonResponse in
                  match errj with
                  | Some e =>
                      Returns ((w, net), (common.zeroAddress, None, Some e))
                  | None =>
                      let jsonTran :=
                        {| JsonSign_R := JsonRx_R jsonrx;
                           JsonSign_S := JsonRx_S jsonrx;
                           JsonSign_V := JsonRx_V jsonrx;
                           JsonSign_To := JsonTx_To JsonMsg;
                           JsonSign_Nonce := fmt_Sprintf_0x_x (AccountNonce tx);
                           JsonSign_GasLimit := fmt_Sprintf_0x_x (GasLimit tx);
                           JsonSign_GasPrice := fmt_Sprintf_0x_x (Price tx);
                           JsonSign_Value := fmt_Sprintf_0x_x (Amount tx);
                           JsonSign_ChainId := big_Int_String chainID;
                           JsonSign_Data :=
                             "0x" +:+ hex_EncodeToString (Payload tx);
                           JsonSign_Hash := JsonRx_Hash jsonrx |} in
                      let '(jsonbyte, _) := json_Marshal_JsonSign jsonTran in
                      let '(tx, err) := Transaction_UnmarshalJSON jsonbyte tx in
                      match err with
                      | Some e =>
                          Returns ((w, net),
                                   (common.zeroAddress, None, Some e))
                      | None =>
                          Returns ((w, net),
                                   (Account_Address account, Some tx, None))
                      end
                  end
              end
          end
      end
  end.

(** [func (w *VeriteemDriver) ReadAccounts()] *)
Definition VeriteemDriver_ReadAccounts (s : VeriteemDriver * World)
    : (VeriteemDriver * World) * (list Account * option error) :=
  let '(w, net) := s in
  let '(net, (acct, err)) :=
    SigningServer_ReadAccountsFromServer (signingServer w) net in
  ((w, net), (acct, err)).

(** [*VeriteemDriver] implements [driver]; the state behind the interface
    value is the driver object with the network it talks to. *)
#[export] Instance VeriteemDriver_driver : driver (VeriteemDriver * World) := {
  driver_Open p s :=
    let '(w, err) := VeriteemDriver_Open p (fst s) in ((w, snd s), err);
  driver_Close s :=
    let '(w, err) := VeriteemDriver_Close (fst s) in ((w, snd s), err);
  driver_Heartbeat s :=
    let '(w, err) := VeriteemDriver_Heartbeat (fst s) in ((w, snd s), err);
  driver_Derive path s :=
    let '(w, r) := VeriteemDriver_Derive path (fst s) in ((w, snd s), r);
  driver_SignTx := VeriteemDriver_SignTx;
  driver_ReadAccounts := VeriteemDriver_ReadAccounts
}.

End Veriteem.

(** ** The registry

    A [time.Time] is a count of nanoseconds and a [time.Duration] a signed
    64-bit count of nanoseconds; [Sub] saturates. *)
Definition Time := Z.
Definition Duration := Z.
Definition Millisecond : Duration := 1000000.
Definition Second : Duration := 1000 * Millisecond.
Definition minDuration : Duration := - 2 ^ 63.
Definition maxDuration : Duration := 2 ^ 63 - 1.

(** [func (t Time) Sub(u Time) Duration] *)
Definition Time_Sub (t u : Time) : Duration :=
  if bool_decide (t - u < minDuration) then minDuration
  else if bool_decide (maxDuration < t - u) then maxDuration
  else t - u.

(** [time.Since(t)] when the clock reads [now]. *)
Definition time_Since (now t : Time) : Duration := Time_Sub now t.

(** The zero [time.Time], January 1 of year 1, counted from the Unix epoch. *)
Definition zeroTime : Time := - 62135596800 * Second.

Definition VeriteemSigningServer : string := "http://13.59.10.65:80".
Definition RemoteWalletScheme : string := "remotewallet".
Definition heartbeatCycle : Duration := 60 * Second.
Definition refreshCycle : Duration := 60 * Second.
Definition refreshThrottling : Duration := 500 * Millisecond.

Section Registry.
Context {D : Type} `{!driver D}.

(** [type RemoteWallet struct].  [wallets] holds the addresses of wallet
    objects, [updateFeed] the events sent on the feed so far, in order, and
    [updateScope] the number of live subscriptions the scope tracks. *)
Record RemoteWallet := {
  rw_signingServer : SigningServer;
  rw_scheme : string;
  rw_makeDriver : SigningServer -> D;
  rw_refreshed : Time;
  rw_wallets : list nat;
  rw_updateFeed : list WalletEvent;
  rw_updateScope : nat;
  rw_updating : bool
}.

(** The wallet objects allocated so far; the address of an object is its
    position, and a new object goes at the end. *)
Definition heap := list (wallet D).

Definition set_wallets (l : list nat) (rw : RemoteWallet) : RemoteWallet :=
  {| rw_signingServer := rw_signingServer rw; rw_scheme := rw_scheme rw;
     rw_makeDriver := rw_makeDriver rw; rw_refreshed := rw_refreshed rw;
     rw_wallets := l; rw_updateFeed := rw_updateFeed rw;
     rw_updateScope := rw_updateScope rw; rw_updating := rw_updating rw |}.

Definition set_refreshed (t : Time) (rw : RemoteWallet) : RemoteWallet :=
  {| rw_signingServer := rw_signingServer rw; rw_scheme := rw_scheme rw;
     rw_makeDriver := rw_makeDriver rw; rw_refreshed := t;
     rw_wallets := rw_wallets rw; rw_updateFeed := rw_updateFeed rw;
     rw_updateScope := rw_updateScope rw; rw_updating := rw_updating rw |}.

Definition set_updateScope (n : nat) (rw : RemoteWallet) : RemoteWallet :=
  {| rw_signingServer := rw_signingServer rw; rw_scheme := rw_scheme rw;
     rw_makeDriver := rw_makeDriver rw; rw_refreshed := rw_refreshed rw;
     rw_wallets := rw_wallets rw; rw_updateFeed := rw_updateFeed rw;
     rw_updateScope := n; rw_updating := rw_updating rw |}.

Definition set_updating (b : bool) (rw : RemoteWallet) : RemoteWallet :=
  {| rw_signingServer := rw_signingServer rw; rw_scheme := rw_scheme rw;
     rw_makeDriver := rw_makeDriver rw; rw_refreshed := rw_refreshed rw;
     rw_wallets := rw_wallets rw; rw_updateFeed := rw_updateFeed rw;
     rw_updateScope := rw_updateScope rw; rw_updating := b |}.

(** [remoteWallet.updateFeed.Send(event)] *)
Definition updateFeed_Send (rw : RemoteWallet) (ev : WalletEvent)
    : RemoteWallet :=
  {| rw_signingServer := rw_signingServer rw; rw_scheme := rw_scheme rw;
     rw_makeDriver := rw_makeDriver rw; rw_refreshed := rw_refreshed rw;
     rw_wallets := rw_wallets rw; rw_updateFeed := rw_updateFeed rw ++ [ev];
     rw_updateScope := rw_updateScope rw; rw_updating := rw_updating rw |}.

(** The composite literal [&wallet{remoteWallet: ..., driver: ..., url: ...,
    log: ...}]: every other field has its zero value. *)
Definition new_wallet (url : URL) (d : D) : wallet D :=
  {| w_url := url; w_driver := d; w_accounts := []; w_paths := None;
     w_healthQuit := None; w_commsLock := None; w_calls := [] |}.

(** [func (remoteWallet *RemoteWallet) refreshWallets()].  [now1] is the
    clock as [time.Since] reads it and [now2] as [time.Now] does. *)
Definition refreshWallets (now1 now2 : Time) (s : heap * RemoteWallet)
    : heap * RemoteWallet :=
  let '(h, remoteWallet) := s in
  let elapsed := time_Since now1 (rw_refreshed remoteWallet) in
  if bool_decide (elapsed < refreshThrottling) then (h, remoteWallet)
  else
    let events : list WalletEvent := [] in
    let '(h, remoteWallet, events) :=
      if bool_decide (length (rw_wallets remoteWallet) = 0%nat) then
        let wallets : list nat := [] in
        let url := {| Scheme := rw_scheme remoteWallet;
                      Path := VeriteemSigningServer |} in
        let wallet :=
          new_wallet url
            (rw_makeDriver remoteWallet (rw_signingServer remoteWallet)) in
        let p := length h in
        let wallets := wallets ++ [p] in
        let events :=
          events ++ [{| Wallet := p; Kind := WalletArrived |}] in
        (h ++ [wallet], set_wallets wallets remoteWallet, events)
      else (h, remoteWallet, events) in
    let remoteWallet := set_refreshed now2 remoteWallet in
    (h, fold_left updateFeed_Send events remoteWallet).

(** [func (remoteWallet *RemoteWallet) Wallets() []accounts.Wallet] *)
Definition Wallets (now1 now2 : Time) (s : heap * RemoteWallet)
    : (heap * RemoteWallet) * list nat :=
  let s := refreshWallets now1 now2 s in
  (s, rw_wallets (snd s)).

(** Whether a call of [refreshWallets] gets past the throttling guard and
    scans. *)
Definition scans (now1 : Time) (remoteWallet : RemoteWallet) : bool :=
  negb (bool_decide
          (time_Since now1 (rw_refreshed remoteWallet) < refreshThrottling)).

(** [func newRemoteWallet(scheme, server, makeDriver)] *)
Definition newRemoteWallet (scheme : string) (server : SigningServer)
    (makeDriver : SigningServer -> D) (now1 now2 : Time)
    : heap * RemoteWallet :=
  let remoteWallet :=
    {| rw_signingServer := server; rw_scheme := scheme;
       rw_makeDriver := makeDriver; rw_refreshed := zeroTime;
       rw_wallets := []; rw_updateFeed := []; rw_updateScope := 0%nat;
       rw_updating := false |} in
  refreshWallets now1 now2 ([], remoteWallet).

(** [func (remoteWallet *RemoteWallet) Subscribe(sink)]: the body run under
    the exclusive lock; the result says whether [go remoteWallet.updater()]
    was executed. *)
Definition Subscribe (remoteWallet : RemoteWallet) : RemoteWallet * bool :=
  let remoteWallet :=
    set_updateScope (Datatypes.S (rw_updateScope remoteWallet)) remoteWallet in
  if negb (rw_updating remoteWallet) then
    (set_updating true remoteWallet, true)
  else (remoteWallet, false).

(** [Unsubscribe] on a tracked subscription: the scope forgets it. *)
Definition Unsubscribe (remoteWallet : RemoteWallet) : RemoteWallet :=
  set_updateScope (Nat.pred (rw_updateScope remoteWallet)) remoteWallet.

(** The tail of one round of [updater], run under the exclusive lock: the
    result says whether the goroutine returns. *)
Definition updater_check (remoteWallet : RemoteWallet)
    : RemoteWallet * bool :=
  if bool_decide (rw_updateScope remoteWallet = 0%nat) then
    (set_updating false remoteWallet, true)
  else (remoteWallet, false).

(** ** The registry with its goroutines

    An updater goroutine is either before [refreshWallets] (asleep) or
    before [stateLock.Lock()].  It is alive from the [go] statement that
    starts it until the locked section in which it clears [updating].
    [Subscribe] and the tail of [updater] run under the same exclusive lock,
    so each is one step.  [step_wallet] is what the methods of the wallets
    and the goroutines they start do to the registry: the wallet objects
    change and events are sent on the feed. *)
Inductive updater_pc : Type := at_Sleep | at_Lock.

Record registry_state := {
  rs_heap : heap;
  rs_registry : RemoteWallet;
  rs_updaters : list updater_pc
}.

Inductive registry_step : registry_state -> registry_state -> Prop :=
| step_Wallets now1 now2 h rw us :
    registry_step
      {| rs_heap := h; rs_registry := rw; rs_updaters := us |}
      {| rs_heap := fst (refreshWallets now1 now2 (h, rw));
         rs_registry := snd (refreshWallets now1 now2 (h, rw));
         rs_updaters := us |}
| step_Subscribe h rw us :
    registry_step
      {| rs_heap := h; rs_registry := rw; rs_updaters := us |}
      {| rs_heap := h; rs_registry := fst (Subscribe rw);
         rs_updaters := if snd (Subscribe rw) then us ++ [at_Sleep] else us |}
| step_Unsubscribe h rw us :
    (0 < rw_updateScope rw)%nat ->
    registry_step
      {| rs_heap := h; rs_registry := rw; rs_updaters := us |}
      {| rs_heap := h; rs_registry := Unsubscribe rw; rs_updaters := us |}
| step_wallet h rw us h' evs :
    registry_step
      {| rs_heap := h; rs_registry := rw; rs_updaters := us |}
      {| rs_heap := h'; rs_registry := fold_left updateFeed_Send evs rw;
         rs_updaters := us |}
| step_updater_refresh now1 now2 h rw us i :
    us !! i = Some at_Sleep ->
    registry_step
      {| rs_heap := h; rs_registry := rw; rs_updaters := us |}
      {| rs_heap := fst (refreshWallets now1 now2 (h, rw));
         rs_registry := snd (refreshWallets now1 now2 (h, rw));
         rs_updaters := <[i := at_Lock]> us |}
| step_updater_check h rw us i :
    us !! i = Some at_Lock ->
    registry_step
      {| rs_heap := h; rs_registry := rw; rs_updaters := us |}
      {| rs_heap := h; rs_registry := fst (updater_check rw);
         rs_updaters := if snd (updater_check rw) then delete i us
                        else <[i := at_Sleep]> us |}.

(** The number of updater goroutines that goes with a value of
    [updating]. *)
Definition updaters_of (updating : bool) : nat :=
  if updating then 1%nat else 0%nat.

(** The states a registry made by [newRemoteWallet] can be in. *)
Inductive registry_reachable : registry_state -> Prop :=
| reachable_new scheme server makeDriver now1 now2 :
    registry_reachable
      {| rs_heap := fst (newRemoteWallet scheme server makeDriver now1 now2);
         rs_registry :=
           snd (newRemoteWallet scheme server makeDriver now1 now2);
         rs_updaters := [] |}
| reachable_step s s' :
    registry_reachable s -> registry_step s s' -> registry_reachable s'.

End Registry.

Arguments RemoteWallet D : clear implicits.
Arguments registry_state D : clear implicits.

(** [func NewVeriteemWallet()]; [net] is the network the drivers it makes
    talk to. *)
Definition NewVeriteemWallet {World : Type} (net : World) (now1 now2 : Time)
    : heap * RemoteWallet (VeriteemDriver * World) :=
  let signingServer :=
    {| ss_serverURL := VeriteemSigningServer; ss_scheme := RemoteWalletScheme;
       ss_connected := false; ss_failed := false;
       ss_cache := {| all := []; lastMod := zeroTime |} |} in
  newRemoteWallet RemoteWalletScheme signingServer
    (fun server => (newVeriteemDriver server, net)) now1 now2.

(** ** Concrete collaborators

    [stub] is a driver that answers every call with a value fixed in its
    state: any signing backend, honest or not, seen from the wallet. *)
Record stub := {
  open_ret : option error;
  close_ret : option error;
  heartbeat_ret : option error;
  sign_ret : common.Address * option Transaction * option error;
  accounts_ret : list Account * option error
}.

#[global] Instance stub_driver : driver stub := {
  driver_Open _ s := (s, open_ret s);
  driver_Close s := (s, close_ret s);
  driver_Heartbeat s := (s, heartbeat_ret s);
  driver_Derive _ s := (s, (common.zeroAddress, Some ErrNotSupported));
  driver_SignTx _ _ _ s := Returns (s, sign_ret s);
  driver_ReadAccounts s := (s, accounts_ret s)
}.

(** A library in which every conversion yields the empty text and the
    server answers at once with an empty body; the network has no state. *)
#[global] Instance loopback : Library unit := {
  hex_EncodeToString _ := "";
  Address_Hex _ := "";
  common_HexToAddress _ := common.zeroAddress;
  fmt_Sprintf_0x_x _ := "";
  big_Int_String _ := "";
  json_Marshal_JsonTx _ := ([], None);
  json_Unmarshal_JsonRx _ :=
    ({| JsonRx_R := ""; JsonRx_S := ""; JsonRx_V := ""; JsonRx_Hash := "" |},
     None);
  json_Marshal_JsonSign _ := ([], None);
  json_Unmarshal_responseJSON _ := {| Status := ""; Accounts := [] |};
  Transaction_UnmarshalJSON _ tx := (tx, None);
  http_valid_url _ := true;
  http_Post _ _ net := (net, ([], None));
  http_Get _ net := (net, ([], None))
}.

Definition alice : Account :=
  {| Account_Address := replicate 20 x01;
     Account_URL := {| Scheme := RemoteWalletScheme;
                       Path := VeriteemSigningServer |} |}.

Definition mallory : common.Address := replicate 20 x02.

Definition transfer : Transaction :=
  {| AccountNonce := 7; Price := 1; GasLimit := 21000;
     Recipient := Some mallory; Amount := 5; Payload := [];
     sig_V := 0; sig_R := 0; sig_S := 0 |}.

(** A stand-in for [common.Address.Hex]. *)
Definition plain_hex : common.Address -> string := fun _ => "".

Definition bob : Account :=
  {| Account_Address := replicate 20 x03;
     Account_URL := {| Scheme := RemoteWalletScheme;
                       Path := VeriteemSigningServer |} |}.

Definition wallet_url : URL :=
  {| Scheme := RemoteWalletScheme; Path := VeriteemSigningServer |}.

(** A backend that signs with the key it is asked for. *)
Definition honest : stub :=
  {| open_ret := None; close_ret := None; heartbeat_ret := None;
     sign_ret := (Account_Address alice, Some transfer, None);
     accounts_ret := ([alice], None) |}.

(** A backend that signs with another key. *)
Definition rogue : stub :=
  {| open_ret := None; close_ret := None; heartbeat_ret := None;
     sign_ret := (mallory, Some transfer, None);
     accounts_ret := ([alice], None) |}.

(** A backend whose open operation fails with the sentinel of package
    [accounts] that [Open] itself uses. *)
Definition refusing : stub :=
  {| open_ret := Some ErrWalletAlreadyOpen; close_ret := None;
     heartbeat_ret := None;
     sign_ret := (common.zeroAddress, None, None);
     accounts_ret := ([], None) |}.

(** A backend whose every operation fails. *)
Definition broken : stub :=
  {| open_ret := Some (library_error "connection refused");
     close_ret := Some (library_error "close failed");
     heartbeat_ret := Some (library_error "timeout");
     sign_ret := (common.zeroAddress, None,
                  Some (library_error "connection refused"));
     accounts_ret := ([], Some (library_error "connection refused")) |}.

(** A driver whose [Open] fails as many times as its state says and then
    succeeds. *)
Record flaky := { failures_left : nat }.

#[global] Instance flaky_driver : driver flaky := {
  driver_Open _ s :=
    match failures_left s with
    | O => (s, None)
    | Datatypes.S n =>
        ({| failures_left := n |}, Some (library_error "connection refused"))
    end;
  driver_Close s := (s, None);
  driver_Heartbeat s := (s, None);
  driver_Derive _ s := (s, (common.zeroAddress, Some ErrNotSupported));
  driver_SignTx _ _ _ s := Returns (s, (common.zeroAddress, None, None));
  driver_ReadAccounts s := (s, ([], None))
}.

(** A wallet as [refreshWallets] makes it, after [Accounts] has cached
    [alice]. *)
Definition cached_wallet {D : Type} (d : D) : wallet D :=
  set_accounts [alice] (new_wallet wallet_url d).

(** The same wallet once opened, with [healthQuit] the channel 1. *)
Definition open_wallet {D : Type} (d : D) : wallet D :=
  set_healthQuit (Some 1%nat) (set_paths (Some []) (cached_wallet d)).

Definition sample_server : SigningServer :=
  {| ss_serverURL := VeriteemSigningServer; ss_scheme := RemoteWalletScheme;
     ss_connected := false; ss_failed := false;
     ss_cache := {| all := []; lastMod := zeroTime |} |}.

(** A registry before its first refresh. *)
Definition empty_registry : RemoteWallet stub :=
  {| rw_signingServer := sample_server; rw_scheme := RemoteWalletScheme;
     rw_makeDriver := fun _ => honest; rw_refreshed := zeroTime;
     rw_wallets := []; rw_updateFeed := []; rw_updateScope := 0%nat;
     rw_updating := false |}.

(** The registry [newRemoteWallet] returns when the clock reads 1000 s, and
    the state after one [Subscribe]. *)
Definition started_registry : registry_state stub :=
  {| rs_heap :=
       (newRemoteWallet RemoteWalletScheme sample_server (fun _ => honest)
          (1000 * Second) (1000 * Second)).1;
     rs_registry :=
       (newRemoteWallet RemoteWalletScheme sample_server (fun _ => honest)
          (1000 * Second) (1000 * Second)).2;
     rs_updaters := [] |}.

Definition subscribed_registry : registry_state stub :=
  {| rs_heap := rs_heap started_registry;
     rs_registry := (Subscribe (rs_registry started_registry)).1;
     rs_updaters :=
       if (Subscribe (rs_registry started_registry)).2
       then rs_updaters started_registry ++ [at_Sleep]
       else rs_updaters started_registry |}.

(** ** Further functions of the package *)

(** [errors.New]: like [fmt.Errorf], an error known by its message. *)
Definition errors_New (msg : string) : error := fmt_Errorf msg.

(** [accounts.Account{}] *)
Definition zeroAccount : Account :=
  {| Account_Address := common.zeroAddress;
     Account_URL := {| Scheme := ""; Path := "" |} |}.

Section WalletMethods.
Context {D : Type} `{!driver D}.

(** [func (w *wallet) URL() accounts.URL] *)
Definition wallet_URL (w : wallet D) : URL := w_url w.

(** [func (w *wallet) Derive(path, pin) (accounts.Account, error)] *)
Definition wallet_Derive (path : DerivationPath) (pin : bool) (w : wallet D)
    : wallet D * (Account * option error) :=
  (w, (zeroAccount, Some ErrNotSupported)).

(** [func (w *wallet) SignHash(account, hash) ([]byte, error)] *)
Definition wallet_SignHash (account : Account) (hash : list byte)
    (w : wallet D) : wallet D * (list byte * option error) :=
  (w, ([], Some ErrNotSupported)).

(** [func (w *wallet) SignHashWithPassphrase(account, passphrase, hash)] *)
Definition wallet_SignHashWithPassphrase (account : Account)
    (passphrase : string) (hash : list byte) (w : wallet D) :=
  wallet_SignHash account hash w.

End WalletMethods.

Section SigningServerMethods.
Context {World : Type} `{!Library World}.

(** [func (sc *SigningServer) SigningServerRequest() (common.Address, error)] *)
Definition SigningServer_SigningServerRequest (sc : SigningServer)
    : common.Address * option error :=
  let addr := common.zeroAddress in
  (addr, None).

(** [func (sc *SigningServer) NewAccount(passPhrase string)]: the branch on
    [error == nil] is the one that reports the failure. *)
Definition SigningServer_NewAccount (passPhrase : string) (sc : SigningServer)
    : Account * option error :=
  let '(addr, err) := SigningServer_SigningServerRequest sc in
  if bool_decide (err = None) then
    (zeroAccount, Some (errors_New "Cannot create account"))
  else
    ({| Account_Address := addr;
        Account_URL := {| Scheme := ss_scheme sc;
                          Path := Address_Hex addr |} |}, None).

End SigningServerMethods.

Section DriverStatus.
(** [fmt.Sprintf("Failed: %v", err)] and
    [fmt.Sprintf("Ethereum app v%d.%d.%d online", v0, v1, v2)] *)
Variable fmt_Sprintf_Failed : error -> string.
Variable fmt_Sprintf_online : byte -> byte -> byte -> string.

(** [func (w *VeriteemDriver) Status() (string, error)] *)
Definition VeriteemDriver_Status (w : VeriteemDriver)
    : string * option error :=
  match failure w with
  | Some e => (fmt_Sprintf_Failed e, failure w)
  | None =>
      let '(v0, v1, v2) := version w in
      (fmt_Sprintf_online v0 v1 v2, failure w)
  end.

End DriverStatus.

Section RegistryRounds.
Context {D : Type}.

(** One round of the loop of [updater], after [time.Sleep]: the refresh,
    then the locked check; the result says whether the goroutine returns. *)
Definition updater_round (now1 now2 : Time)
    (s : @heap D * RemoteWallet D) : (@heap D * RemoteWallet D) * bool :=
  let s := refreshWallets now1 now2 s in
  let '(remoteWallet, stop) := updater_check s.2 in
  ((s.1, remoteWallet), stop).

(** Calls of [Wallets] one after the other, each with its two clock
    readings; the result lists what each call returned. *)
Fixpoint Wallets_calls (times : list (Time * Time))
    (s : @heap D * RemoteWallet D)
    : (@heap D * RemoteWallet D) * list (list nat) :=
  match times with
  | [] => (s, [])
  | (now1, now2) :: times =>
      let '(s, l) := Wallets now1 now2 s in
      let '(s, ls) := Wallets_calls times s in
      (s, l :: ls)
  end.

End RegistryRounds.

(** A library whose server lists two accounts while the network is up
    ([true]) and refuses the connection while it is down ([false]). *)
#[global] Instance canned : Library bool := {
  hex_EncodeToString _ := "";
  Address_Hex _ := "";
  common_HexToAddress name :=
    if bool_decide (name = "0x01") then replicate 20 x01
    else replicate 20 x03;
  fmt_Sprintf_0x_x _ := "";
  big_Int_String _ := "";
  json_Marshal_JsonTx _ := ([], None);
  json_Unmarshal_JsonRx _ :=
    ({| JsonRx_R := ""; JsonRx_S := ""; JsonRx_V := ""; JsonRx_Hash := "" |},
     None);
  json_Marshal_JsonSign _ := ([], None);
  json_Unmarshal_responseJSON _ :=
    {| Status := "ok"; Accounts := ["0x01"; "0x03"] |};
  Transaction_UnmarshalJSON _ tx := (tx, None);
  http_valid_url _ := true;
  http_Post _ _ net :=
    (net, ([], if net then None else Some (library_error "connection refused")));
  http_Get _ net :=
    (net, ([], if net then None else Some (library_error "connection refused")))
}.

(** A contract creation: no recipient. *)
Definition deployment : Transaction :=
  {| AccountNonce := 0; Price := 1; GasLimit := 21000; Recipient := None;
     Amount := 0; Payload := []; sig_V := 0; sig_R := 0; sig_S := 0 |}.

(** ** Properties of the wallet *)

Section WalletProperties.
Context {D : Type} `{!driver D}.
Variable Address_Hex : common.Address -> string.

Lemma Contains_loop_true (b : list byte) (l : list Account) :
  Contains_loop b l = true <->
  Exists (fun acct => common.Bytes (Account_Address acct) = b) l.
Proof.
  induction l as [|acct rest IH]; simpl.
  - split; [discriminate | intros H; inversion H].
  - unfold bytes_Equal. case_bool_decide as Heq.
    + split; [intros _; left; congruence | reflexivity].
    + rewrite IH. split; [intros H; right; exact H |].
      intros H. inversion H; subst; [congruence | assumption].
Qed.

Lemma Contains_loop_false (b : list byte) (l : list Account) :
  Contains_loop b l = false <->
  Forall (fun acct => common.Bytes (Account_Address acct) <> b) l.
Proof.
  rewrite <- not_true_iff_false, Contains_loop_true.
  rewrite <- Forall_Exists_neg. reflexivity.
Qed.

(** The four ways [SignTx] ends, by the branch taken. *)
Lemma wallet_SignTx_cases (account : Account) (tx : Transaction)
    (chainID : option Z) (w : wallet D) :
  (wallet_Contains account w = false /\
   wallet_SignTx Address_Hex account tx chainID w
   = Returns (w, (None, Some ErrUnknownAccount)))
  \/ (wallet_Contains account w = true /\
      driver_SignTx account tx chainID (w_driver w) = Panics /\
      wallet_SignTx Address_Hex account tx chainID w = Panics)
  \/ (exists d sender signedTx err,
        wallet_Contains account w = true /\
        driver_SignTx account tx chainID (w_driver w)
        = Returns (d, (sender, signedTx, err)) /\
        wallet_SignTx Address_Hex account tx chainID w
        = Returns
            (set_driver d
               (CallSignTx account tx chainID (sender, signedTx, err)) w,
             match err with
             | Some e => (None, Some e)
             | None =>
                 if bool_decide (sender <> Account_Address account)
                 then (None,
                       Some (signer_mismatch Address_Hex
                               (Account_Address account) sender))
                 else (signedTx, None)
             end)).
Proof.
  unfold wallet_SignTx.
  destruct (wallet_Contains account w) eqn:Hc.
  - right. rewrite bool_decide_eq_false_2 by discriminate.
    destruct (driver_SignTx account tx chainID (w_driver w))
      as [[d [[sender signedTx] err]]|] eqn:Hd.
    + right. exists d, sender, signedTx, err.
      repeat split. destruct err; [reflexivity|].
      case_bool_decide; reflexivity.
    + left. repeat split.
  - left. rewrite bool_decide_eq_true_2 by reflexivity. split; reflexivity.
Qed.

Lemma calls_snoc_neq (l : list driver_call) (c : driver_call) :
  l <> l ++ [c].
Proof.
  intros H. apply (f_equal length) in H. rewrite length_app in H.
  simpl in H. lia.
Qed.

Lemma calls_snoc_inj (l : list driver_call) (c c' : driver_call) :
  l ++ [c] = l ++ [c'] -> c = c'.
Proof. intros H. apply app_inv_head in H. congruence. Qed.

(** C1. In every call of [wallet.SignTx] that returns: if during the call
    the driver's sign operation returned without error a signer address
    that differs from the requested account's address, the call returns the
    signer-mismatch error and a [nil] transaction (said twice: by the record
    of driver calls, and by the driver's result for a cached account, the
    only one it is asked about); and if the call returns no error, the
    driver's sign operation returned without error the account's own
    address together with the very transaction the call returns. *)
Theorem SignTx_signer_mismatch (account : Account) (tx : Transaction)
    (chainID : option Z) (w w' : wallet D)
    (out : option Transaction * option error) :
  wallet_SignTx Address_Hex account tx chainID w = Returns (w', out) ->
  (forall sender signedTx,
     w_calls w' = w_calls w ++
                  [CallSignTx account tx chainID (sender, signedTx, None)] ->
     sender <> Account_Address account ->
     out = (None, Some (signer_mismatch Address_Hex
                          (Account_Address account) sender)))
  /\ (forall d sender signedTx,
        wallet_Contains account w = true ->
        driver_SignTx account tx chainID (w_driver w)
        = Returns (d, (sender, signedTx, None)) ->
        sender <> Account_Address account ->
        out = (None, Some (signer_mismatch Address_Hex
                             (Account_Address account) sender)))
  /\ (out.2 = None ->
      w_calls w' = w_calls w ++
                   [CallSignTx account tx chainID
                      (Account_Address account, out.1, None)]).
Proof.
  intros Hrun.
  destruct (wallet_SignTx_cases account tx chainID w)
    as [[Hc H]|[(_ & _ & H)|(d & sender & signedTx & err & _ & Hd & H)]];
    rewrite H in Hrun; try discriminate; injection Hrun as <- <-.
  - split; [|split].
    + intros s t Hcalls _. exfalso. exact (calls_snoc_neq _ _ Hcalls).
    + intros d s t Hc'. congruence.
    + discriminate.
  - split; [|split].
    + intros s t Hcalls Hne. simpl in Hcalls.
      apply calls_snoc_inj in Hcalls. injection Hcalls as -> -> ->.
      rewrite bool_decide_eq_true_2 by assumption. reflexivity.
    + intros d' s t _ Hd' Hne. rewrite Hd' in Hd. simplify_eq.
      rewrite bool_decide_eq_true_2 by assumption. reflexivity.
    + destruct err as [e|]; [discriminate|].
      case_bool_decide as Hs; [discriminate|]. intros _. simpl.
      rewrite Hs. reflexivity.
Qed.

(** C2. When no entry of the cached account list has an address byte-equal
    to the account's, [wallet.SignTx] returns [ErrUnknownAccount] and a
    [nil] transaction and leaves the wallet as it was: nothing is added to
    the record of driver calls, whatever the driver is (one whose sign
    operation panics included). *)
Theorem SignTx_unknown_account (account : Account) (tx : Transaction)
    (chainID : option Z) (w : wallet D) :
  Forall (fun acct =>
            bytes_Equal (common.Bytes (Account_Address account))
                        (common.Bytes (Account_Address acct)) = false)
         (w_accounts w) ->
  wallet_SignTx Address_Hex account tx chainID w
  = Returns (w, (None, Some ErrUnknownAccount)).
Proof.
  intros Hall.
  assert (Hc : wallet_Contains account w = false).
  { unfold wallet_Contains. apply Contains_loop_false.
    eapply Forall_impl; [exact Hall|]. intros acct Hb Heq. cbv beta in Hb.
    unfold bytes_Equal in Hb. apply bool_decide_eq_false in Hb.
    apply Hb. symmetry. exact Heq. }
  unfold wallet_SignTx. rewrite bool_decide_eq_true_2 by exact Hc.
  reflexivity.
Qed.

(** *** [Open] *)

Lemma set_driver_neq (d : D) (c : driver_call) (w : wallet D) :
  set_driver d c w <> w.
Proof.
  intros H. apply (f_equal w_calls) in H. simpl in H.
  symmetry in H. exact (calls_snoc_neq _ _ H).
Qed.

Lemma wallet_Open_already_open (self : nat) (hq : chan) (passphrase : string)
    (w : wallet D) :
  w_paths w <> None ->
  wallet_Open_locked self hq passphrase w = (w, Some ErrWalletAlreadyOpen, []).
Proof.
  intros Hp. unfold wallet_Open_locked. rewrite bool_decide_eq_true_2 by exact Hp.
  reflexivity.
Qed.

Lemma wallet_Open_closed (self : nat) (hq : chan) (passphrase : string)
    (w : wallet D) (d : D) (err : option error) :
  w_paths w = None ->
  driver_Open passphrase (w_driver w) = (d, err) ->
  wallet_Open_locked self hq passphrase w
  = match err with
    | Some e => (set_driver d (CallOpen passphrase (Some e)) w, Some e, [])
    | None =>
        (set_healthQuit (Some hq)
           (set_paths (Some []) (set_driver d (CallOpen passphrase None) w)),
         None,
         [go_heartbeat;
          go_updateFeed_Send {| Wallet := self; Kind := WalletOpened |}])
    end.
Proof.
  intros Hp Hd. unfold wallet_Open_locked.
  rewrite bool_decide_eq_false_2 by (rewrite Hp; intros H; apply H; reflexivity).
  rewrite Hd. destruct err; reflexivity.
Qed.

Lemma wallet_Open_free (tasks : list task_status) (self : nat) (hq : chan)
    (passphrase : string) (w : wallet D) :
  stateLock_Lock tasks = true ->
  wallet_Open tasks self hq passphrase w
  = Some (wallet_Open_locked self hq passphrase w).
Proof. intros Hl. unfold wallet_Open. rewrite Hl. reflexivity. Qed.

Lemma wallet_Open_blocked (tasks : list task_status) (self : nat) (hq : chan)
    (passphrase : string) (w : wallet D) :
  stateLock_Lock tasks = false ->
  wallet_Open tasks self hq passphrase w = None.
Proof. intros Hl. unfold wallet_Open. rewrite Hl. reflexivity. Qed.

(** C3.  Whenever [Open] gets the state lock:
    - if [paths] is not [nil] it returns [ErrWalletAlreadyOpen], the wallet
      left as it was, the driver not called and no goroutine started;
    - if [paths] is [nil] it calls the driver's open and returns what that
      returns; so on a closed wallet it returns [ErrWalletAlreadyOpen], or
      any other error, exactly when the driver's open does;
    - when the driver's open fails with [e], [Open] returns [e], starts
      nothing and changes no field but the driver: [paths] is still [nil],
      [healthQuit] is what it was (so [nil] for a closed wallet) and the
      account list is untouched; a later [Open] that gets the lock calls
      the driver afresh, and if the driver then opens, the wallet becomes
      open. *)
Theorem Open_already_open_and_retry (tasks : list task_status) (self : nat)
    (hq : chan) (passphrase : string) (w : wallet D) :
  stateLock_Lock tasks = true ->
  (w_paths w <> None ->
   wallet_Open tasks self hq passphrase w
   = Some (w, Some ErrWalletAlreadyOpen, []))
  /\ (w_paths w = None ->
      exists w',
        wallet_Open tasks self hq passphrase w
        = Some (w', (driver_Open passphrase (w_driver w)).2,
                match (driver_Open passphrase (w_driver w)).2 with
                | Some _ => []
                | None =>
                    [go_heartbeat;
                     go_updateFeed_Send
                       {| Wallet := self; Kind := WalletOpened |}]
                end)
        /\ w_driver w' = (driver_Open passphrase (w_driver w)).1
        /\ w_calls w'
           = w_calls w
             ++ [CallOpen passphrase (driver_Open passphrase (w_driver w)).2])
  /\ (forall w' g,
        wallet_Open tasks self hq passphrase w
        = Some (w', Some ErrWalletAlreadyOpen, g) ->
        w_paths w <> None
        \/ (driver_Open passphrase (w_driver w)).2
           = Some ErrWalletAlreadyOpen)
  /\ (forall d e,
        w_paths w = None ->
        driver_Open passphrase (w_driver w) = (d, Some e) ->
        let w1 := set_driver d (CallOpen passphrase (Some e)) w in
        wallet_Open tasks self hq passphrase w = Some (w1, Some e, [])
        /\ w_paths w1 = None
        /\ w_healthQuit w1 = w_healthQuit w
        /\ (w_healthQuit w = None -> w_healthQuit w1 = None)
        /\ w_accounts w1 = w_accounts w
        /\ forall tasks' hq' passphrase' d',
             stateLock_Lock tasks' = true ->
             driver_Open passphrase' (w_driver w1) = (d', None) ->
             exists w2,
               wallet_Open tasks' self hq' passphrase' w1
               = Some (w2, None,
                       [go_heartbeat;
                        go_updateFeed_Send
                          {| Wallet := self; Kind := WalletOpened |}])
               /\ w_paths w2 = Some []
               /\ w_healthQuit w2 = Some hq').
Proof.
  intros Hlock. rewrite (wallet_Open_free _ _ _ _ _ Hlock).
  split; [|split; [|split]].
  - intros Hp. rewrite (wallet_Open_already_open _ _ _ _ Hp).
    reflexivity.
  - intros Hp. destruct (driver_Open passphrase (w_driver w)) as [d err] eqn:Hd.
    rewrite (wallet_Open_closed _ _ _ _ _ _ Hp Hd). cbn [fst snd].
    destruct err as [e|]; eexists; (split; [reflexivity|]); split; reflexivity.
  - intros w' g Hrun. destruct (w_paths w) as [p|] eqn:Hp.
    + left. discriminate.
    + right. destruct (driver_Open passphrase (w_driver w)) as [d err] eqn:Hd.
      rewrite (wallet_Open_closed _ _ _ _ _ _ Hp Hd) in Hrun.
      destruct err as [e|]; injection Hrun as _ He _;
        [rewrite He; reflexivity|discriminate].
  - intros d e Hp Hd w1. subst w1.
    rewrite (wallet_Open_closed _ _ _ _ _ _ Hp Hd).
    split; [reflexivity|]. split; [exact Hp|]. split; [reflexivity|].
    split; [intros Hq; exact Hq|]. split; [reflexivity|].
    intros tasks' hq' passphrase' d' Hlock' Hd'.
    rewrite (wallet_Open_free _ _ _ _ _ Hlock'). eexists. split.
    + rewrite (wallet_Open_closed self hq' passphrase' _ d' None);
        [reflexivity | exact Hp | exact Hd'].
    + split; reflexivity.
Qed.

(** *** [close] and [Close] *)

Lemma wallet_close_spec (w : wallet D) :
  wallet_close w
  = (set_driver (driver_Close (w_driver w)).1
       (CallClose (driver_Close (w_driver w)).2)
       (set_paths None (set_accounts [] w)),
     None).
Proof.
  unfold wallet_close. simpl.
  destruct (driver_Close (w_driver w)) as [d ret]. reflexivity.
Qed.

(** C4. [Close] returns one [error] value, the teardown's error if there is
    one and else the heartbeat's; the teardown [close] empties the account
    list, sets [paths] to [nil], calls the driver's close once and returns
    [nil] whatever that call returned.  So:
    - with [healthQuit] nil, [Close] does return, without a handshake, and
      returns [nil];
    - with [healthQuit] set and a reply [herr] from the handshake, [Close]
      does return, and returns [herr]: the error the heartbeat reported if
      it is not [nil], and [nil] otherwise;
    - with [healthQuit] set and no reply, [Close] does not return;
    and whenever [Close] returns, it has torn down the wallet as it was at
    the reply and leaves it closed. *)
Theorem Close_returns_heartbeat_error (errc : chan)
    (handshake : chan -> wallet D -> option (wallet D * option error))
    (w : wallet D) :
  (forall e herr, Close_result (Some e) herr = Some e)
  /\ (forall herr, Close_result None herr = herr)
  /\ (forall w0 : wallet D,
        (wallet_close w0).2 = None
        /\ w_accounts (wallet_close w0).1 = []
        /\ w_paths (wallet_close w0).1 = None
        /\ w_calls (wallet_close w0).1
           = w_calls w0 ++ [CallClose (driver_Close (w_driver w0)).2])
  /\ (w_healthQuit w = None ->
      wallet_Close errc handshake w = Some ((wallet_close w).1, None))
  /\ (forall w1 herr,
        w_healthQuit w <> None ->
        handshake errc w = Some (w1, herr) ->
        wallet_Close errc handshake w
        = Some ((wallet_close (set_healthQuit None w1)).1, herr))
  /\ (w_healthQuit w <> None ->
      handshake errc w = None ->
      wallet_Close errc handshake w = None)
  /\ (forall w' r,
        wallet_Close errc handshake w = Some (w', r) ->
        (exists w1 herr,
           match w_healthQuit w with
           | Some _ => handshake errc w = Some (w1, herr)
           | None => w1 = w /\ herr = None
           end
           /\ r = herr
           /\ w' = (wallet_close (set_healthQuit None w1)).1)
        /\ w_accounts w' = [] /\ w_paths w' = None
        /\ w_healthQuit w' = None).
Proof.
  split; [reflexivity|].
  split; [intros [e|]; reflexivity|].
  split.
  { intros w0. rewrite wallet_close_spec. repeat split. }
  split.
  { intros Hq. unfold wallet_Close. rewrite Hq.
    replace (set_healthQuit None w) with w
      by (destruct w; simpl in Hq; subst; reflexivity).
    rewrite wallet_close_spec. reflexivity. }
  split.
  { intros w1 herr Hq Hh. unfold wallet_Close.
    destruct (w_healthQuit w); [|congruence].
    rewrite Hh, wallet_close_spec. destruct herr; reflexivity. }
  split.
  { intros Hq Hh. unfold wallet_Close.
    destruct (w_healthQuit w); [|congruence]. rewrite Hh. reflexivity. }
  intros w' r Hrun. unfold wallet_Close in Hrun.
  destruct (w_healthQuit w) as [q|] eqn:Hq.
  + destruct (handshake errc w) as [[w1 herr]|] eqn:Hh; [|discriminate].
    rewrite wallet_close_spec in Hrun. injection Hrun as <- <-.
    split; [|repeat split].
    exists w1, herr. rewrite wallet_close_spec.
    split; [reflexivity|]. split; [destruct herr; reflexivity|reflexivity].
  + rewrite wallet_close_spec in Hrun. injection Hrun as <- <-.
    split; [|repeat split].
    exists w, None. rewrite wallet_close_spec. repeat split.
Qed.

(** *** The heartbeat goroutine *)

Lemma heartbeat_loop_unfold (evs : list select_outcome) (errc : option chan)
    (err : option error) (w : wallet D) :
  heartbeat_loop evs errc err w
  = if bool_decide (errc = None) && bool_decide (err = None) then
      match evs with
      | [] => (w, loop_in_select)
      | quit_request c :: evs =>
          match w_healthQuit w with
          | Some _ => heartbeat_loop evs (Some c) err w
          | None => heartbeat_loop evs errc err w
          end
      | heartbeatCycle_elapsed :: evs =>
          match w_commsLock w with
          | None | Some O => (w, loop_on_commsLock)
          | Some (Datatypes.S n) =>
              let w := set_commsLock (Some n) w in
              let '(d, err) := driver_Heartbeat (w_driver w) in
              let w := set_driver d (CallHeartbeat err) w in
              let w := set_commsLock (Some (Datatypes.S n)) w in
              let w := match err with
                       | Some _ => fst (wallet_close w)
                       | None => w
                       end in
              heartbeat_loop evs errc None w
          end
      end
    else (w, loop_exit errc err evs).
Proof. destruct evs; reflexivity. Qed.

Lemma heartbeat_loop_requested (evs : list select_outcome) (c : chan)
    (err : option error) (w : wallet D) :
  heartbeat_loop evs (Some c) err w = (w, loop_exit (Some c) err evs).
Proof. rewrite heartbeat_loop_unfold. reflexivity. Qed.

(** The loop is left only with a reply channel taken from a request and
    with no error. *)
Lemma heartbeat_loop_exit (evs : list select_outcome) (w w' : wallet D)
    (errc : option chan) (err : option error) (rest : list select_outcome) :
  heartbeat_loop evs None None w = (w', loop_exit errc err rest) ->
  err = None /\
  exists c pre, errc = Some c /\ evs = pre ++ quit_request c :: rest.
Proof.
  revert w. induction evs as [|ev evs IH]; intros w Hrun;
    rewrite heartbeat_loop_unfold in Hrun; simpl in Hrun.
  - discriminate.
  - destruct ev as [c|].
    + destruct (w_healthQuit w).
      * rewrite heartbeat_loop_requested in Hrun.
        injection Hrun as _ <- <- <-. split; [reflexivity|].
        exists c, []. split; reflexivity.
      * destruct (IH _ Hrun) as (He & c' & pre & Hc & Hevs).
        split; [exact He|]. exists c', (quit_request c :: pre).
        split; [exact Hc|]. rewrite Hevs. reflexivity.
    + destruct (w_commsLock w) as [[|n]|]; try discriminate.
      destruct (driver_Heartbeat (w_driver w)) as [d e].
      destruct (IH _ Hrun) as (He & c' & pre & Hc & Hevs).
      split; [exact He|]. exists c', (heartbeatCycle_elapsed :: pre).
      split; [exact Hc|]. rewrite Hevs. reflexivity.
Qed.

(** A goroutine that is back in its [select] behaves from there as one that
    has just been started. *)
Lemma heartbeat_loop_resume (pre evs : list select_outcome)
    (w w1 : wallet D) :
  heartbeat_loop pre None None w = (w1, loop_in_select) ->
  heartbeat_loop (pre ++ evs) None None w = heartbeat_loop evs None None w1.
Proof.
  revert w. induction pre as [|ev pre IH]; intros w Hrun;
    rewrite heartbeat_loop_unfold in Hrun; simpl in Hrun.
  - injection Hrun as <-. reflexivity.
  - rewrite <- app_comm_cons, heartbeat_loop_unfold. simpl.
    destruct ev as [c|].
    + destruct (w_healthQuit w).
      * rewrite heartbeat_loop_requested in Hrun. discriminate.
      * apply IH. exact Hrun.
    + destruct (w_commsLock w) as [[|n]|]; try discriminate.
      destruct (driver_Heartbeat (w_driver w)) as [d e].
      apply IH. exact Hrun.
Qed.

Lemma heartbeat_in_select (evs : list select_outcome) (w w1 : wallet D)
    (sent : list (chan * option error)) :
  heartbeat evs w = (w1, task_in_select, sent) ->
  heartbeat_loop evs None None w = (w1, loop_in_select).
Proof.
  unfold heartbeat.
  destruct (heartbeat_loop evs None None w) as [w2 [| |errc err rest]];
    try discriminate.
  - intros H. injection H as <- _. reflexivity.
  - destruct err.
    + destruct (match w_healthQuit w2 with
                | Some _ => recv_healthQuit rest
                | None => None
                end); discriminate.
    + destruct errc; discriminate.
Qed.

(** The heartbeat goroutine of a wallet whose [commsLock] is [nil] stays on
    the receive from it once the heartbeat cycle has elapsed. *)
Lemma heartbeat_nil_commsLock (evs : list select_outcome) (w : wallet D) :
  w_commsLock w = None ->
  heartbeat (heartbeatCycle_elapsed :: evs) w = (w, task_on_commsLock, []).
Proof.
  intros Hc. unfold heartbeat. rewrite heartbeat_loop_unfold. simpl.
  rewrite Hc. reflexivity.
Qed.

(** The handshake with a goroutine that is in its [select].  For an open
    wallet ([healthQuit] not [nil]):
    - a heartbeat goroutine in its [select] (just started, or back there
      after the outcomes [pre]) that receives a termination request sends
      exactly one value, [nil], on the reply channel of that request, and
      returns;
    - in every run the goroutine sends at most one value, always [nil] and
      always on the reply channel of a request it was given, and it has
      returned exactly when it has sent it;
    - [Close] goes on to the teardown only with a reply: with none it does
      not return, and with the heartbeat goroutine as the receiver it gets
      [nil], tears the wallet down as it was at the reply, and returns
      [nil]. *)
Theorem heartbeat_termination_handshake (w : wallet D) (q : chan) :
  w_healthQuit w = Some q ->
  (forall pre w1 sent0 errc rest,
     heartbeat pre w = (w1, task_in_select, sent0) ->
     w_healthQuit w1 <> None ->
     heartbeat (pre ++ quit_request errc :: rest) w
     = (w1, task_returned, [(errc, None)]))
  /\ (forall evs w1 st sent,
        heartbeat evs w = (w1, st, sent) ->
        (st = task_returned /\
         exists c pre post,
           sent = [(c, None)] /\ evs = pre ++ quit_request c :: post)
        \/ (st <> task_returned /\ sent = []))
  /\ (forall errc handshake,
        handshake errc w = None -> wallet_Close errc handshake w = None)
  /\ (forall errc,
        wallet_Close errc (heartbeat_handshake []) w
        = Some ((wallet_close (set_healthQuit None w)).1, None)).
Proof.
  intros Hq. split; [|split; [|split]].
  - intros pre w1 sent0 errc rest Hpre Hq1.
    apply heartbeat_in_select in Hpre. unfold heartbeat.
    rewrite (heartbeat_loop_resume _ _ _ _ Hpre), heartbeat_loop_unfold.
    simpl. destruct (w_healthQuit w1); [|congruence].
    rewrite heartbeat_loop_requested. reflexivity.
  - intros evs w1 st sent Hrun. unfold heartbeat in Hrun.
    destruct (heartbeat_loop evs None None w)
      as [w2 [| |errc err rest]] eqn:Hloop.
    + injection Hrun as _ <- <-. right. split; [discriminate|reflexivity].
    + injection Hrun as _ <- <-. right. split; [discriminate|reflexivity].
    + destruct (heartbeat_loop_exit _ _ _ _ _ _ Hloop)
        as (-> & c & pre & -> & Hevs).
      injection Hrun as _ <- <-. left. split; [reflexivity|].
      exists c, pre, rest. split; [reflexivity|exact Hevs].
  - intros errc handshake Hnone. unfold wallet_Close.
    rewrite Hq, Hnone. reflexivity.
  - intros errc. unfold wallet_Close, heartbeat_handshake, heartbeat.
    rewrite Hq. simpl. rewrite Hq.
    rewrite bool_decide_eq_true_2 by reflexivity.
    rewrite wallet_close_spec. reflexivity.
Qed.

(** With a driver whose heartbeat never fails, a run of the heartbeat
    goroutine adds to the record of driver calls only heartbeats that
    returned [nil], and leaves the account list and [paths] alone: it never
    tears the wallet down. *)
Lemma heartbeat_loop_healthy (evs : list select_outcome) :
  (forall d : D, (driver_Heartbeat d).2 = None) ->
  forall (errc : option chan) (w w' : wallet D) (e : loop_end),
    heartbeat_loop evs errc None w = (w', e) ->
    (exists n, w_calls w' = w_calls w ++ replicate n (CallHeartbeat None))
    /\ w_accounts w' = w_accounts w /\ w_paths w' = w_paths w.
Proof.
  intros Hok. induction evs as [|ev evs IH]; intros errc w w' e Hrun;
    rewrite heartbeat_loop_unfold in Hrun; simpl in Hrun.
  - destruct (bool_decide (errc = None)); injection Hrun as <- _;
      (split; [exists 0%nat; simpl; rewrite app_nil_r; reflexivity|]);
      split; reflexivity.
  - destruct (bool_decide (errc = None)); simpl in Hrun;
      [|injection Hrun as <- _;
        (split; [exists 0%nat; simpl; rewrite app_nil_r; reflexivity|]);
        split; reflexivity].
    destruct ev as [c|].
    + destruct (w_healthQuit w); exact (IH _ _ _ _ Hrun).
    + destruct (w_commsLock w) as [[|n]|];
        try (injection Hrun as <- _;
             (split; [exists 0%nat; simpl; rewrite app_nil_r; reflexivity|]);
             split; reflexivity).
      pose proof (Hok (w_driver w)) as Hd.
      destruct (driver_Heartbeat (w_driver w)) as [d r].
      simpl in Hd. subst r.
      destruct (IH _ _ _ _ Hrun) as ((n' & Hcalls) & Ha & Hp).
      simpl in Hcalls, Ha, Hp. split; [|split; assumption].
      exists (Datatypes.S n'). rewrite Hcalls, <- app_assoc. reflexivity.
Qed.

Lemma heartbeat_wallet (evs : list select_outcome) (w : wallet D) :
  (heartbeat evs w).1.1 = (heartbeat_loop evs None None w).1.
Proof.
  unfold heartbeat.
  destruct (heartbeat_loop evs None None w) as [w' [| |errc err rest]];
    try reflexivity.
  destruct err.
  - destruct (match w_healthQuit w' with
              | Some _ => recv_healthQuit rest
              | None => None
              end); reflexivity.
  - destruct errc; reflexivity.
Qed.

Lemma heartbeat_healthy (evs : list select_outcome) (w : wallet D) :
  (forall d : D, (driver_Heartbeat d).2 = None) ->
  (exists n,
     w_calls (heartbeat evs w).1.1
     = w_calls w ++ replicate n (CallHeartbeat None))
  /\ w_accounts (heartbeat evs w).1.1 = w_accounts w
  /\ w_paths (heartbeat evs w).1.1 = w_paths w.
Proof.
  intros Hok. rewrite heartbeat_wallet.
  destruct (heartbeat_loop evs None None w) as [w' e] eqn:Hrun.
  exact (heartbeat_loop_healthy evs Hok _ _ _ _ Hrun).
Qed.

End WalletProperties.

(** ** Properties of the Veriteem driver *)

Section VeriteemProperties.
Context {World : Type} `{!Library World}.

(** C9. Whenever [VeriteemDriver.SignTx] returns without error, the signer
    address it returns is the address of the requested account; so a call
    of [wallet.SignTx] on a wallet backed by this driver that returns ends
    in one of three ways, none of them the signer-mismatch branch: unknown
    account, the error of the driver, or the transaction the driver
    signed. *)
Theorem VeriteemDriver_SignTx_signer (account : Account) (tx : Transaction)
    (chainID : option Z) :
  (forall s s' sender signedTx,
     VeriteemDriver_SignTx account tx chainID s
     = Returns (s', (sender, signedTx, None)) ->
     sender = Account_Address account)
  /\ (forall (w w' : wallet (VeriteemDriver * World)) out,
        wallet_SignTx Address_Hex account tx chainID w = Returns (w', out) ->
        (wallet_Contains account w = false /\
         out = (None, Some ErrUnknownAccount))
        \/ (exists s' sender signedTx e,
              driver_SignTx account tx chainID (w_driver w)
              = Returns (s', (sender, signedTx, Some e)) /\
              out = (None, Some e))
        \/ (exists s' signedTx,
              driver_SignTx account tx chainID (w_driver w)
              = Returns (s', (Account_Address account, signedTx, None)) /\
              out = (signedTx, None))).
Proof.
  assert (Hsigner : forall s s' sender signedTx,
             VeriteemDriver_SignTx account tx chainID s
             = Returns (s', (sender, signedTx, None)) ->
             sender = Account_Address account).
  { intros [w net] s' sender signedTx Hrun.
    unfold VeriteemDriver_SignTx in Hrun.
    repeat case_match; simplify_eq; reflexivity. }
  split; [exact Hsigner|].
  intros w w' out Hrun.
  destruct (wallet_SignTx_cases Address_Hex account tx chainID w)
    as [[Hc H]|[(_ & _ & H)|(d & sender & signedTx & err & _ & Hd & H)]];
    rewrite H in Hrun; try discriminate; injection Hrun as <- <-.
  - left. split; [exact Hc|reflexivity].
  - right. destruct err as [e|].
    + left. exists d, sender, signedTx, e. split; [exact Hd|reflexivity].
    + right. pose proof (Hsigner _ _ _ _ Hd) as ->.
      exists d, signedTx. split; [exact Hd|].
      rewrite bool_decide_eq_false_2; [reflexivity|].
      intros Hne. apply Hne. reflexivity.
Qed.

(** C10. [ledgerVersion] returns the version 1.0.0 and no error, so
    [VeriteemDriver.Heartbeat] returns [nil] and leaves the driver as it
    was; hence every run of the heartbeat goroutine of a wallet backed by
    this driver records only heartbeats that returned [nil] and never the
    driver's close: it observes no failure and does not tear the wallet
    down ([paths] and the account list stay as they were). *)
Theorem VeriteemDriver_Heartbeat_never_fails :
  (forall w, VeriteemDriver_ledgerVersion w = ((x01, x00, x00), None))
  /\ (forall w, VeriteemDriver_Heartbeat w = (w, None))
  /\ (forall (evs : list select_outcome)
             (w : wallet (VeriteemDriver * World)),
        (exists n,
           w_calls (heartbeat evs w).1.1
           = w_calls w ++ replicate n (CallHeartbeat None))
        /\ w_accounts (heartbeat evs w).1.1 = w_accounts w
        /\ w_paths (heartbeat evs w).1.1 = w_paths w).
Proof.
  split; [reflexivity|]. split; [reflexivity|].
  intros evs w. apply heartbeat_healthy. intros d. reflexivity.
Qed.

End VeriteemProperties.

(** ** Properties of the registry *)

Section RegistryProperties.
Context {D : Type}.

Lemma Time_Sub_lt (t u : Time) (d : Duration) :
  minDuration < d <= maxDuration ->
  Time_Sub t u < d <-> t - u < d.
Proof.
  unfold Time_Sub, minDuration, maxDuration.
  intros Hd. repeat case_bool_decide; lia.
Qed.

Lemma refreshThrottling_range :
  minDuration < refreshThrottling <= maxDuration.
Proof.
  unfold minDuration, maxDuration, refreshThrottling, Millisecond.
  split; [reflexivity|discriminate].
Qed.

Lemma scans_false (now1 : Time) (rw : RemoteWallet D) :
  scans now1 rw = false <->
  time_Since now1 (rw_refreshed rw) < 500 * Millisecond.
Proof.
  unfold scans. rewrite negb_false_iff, bool_decide_eq_true. reflexivity.
Qed.

Lemma scans_true (now1 : Time) (rw : RemoteWallet D) :
  scans now1 rw = true <->
  ~ time_Since now1 (rw_refreshed rw) < 500 * Millisecond.
Proof.
  unfold scans. rewrite negb_true_iff, bool_decide_eq_false. reflexivity.
Qed.

(** The three ways [refreshWallets] ends. *)
Lemma refreshWallets_cases (now1 now2 : Time) (h : heap)
    (rw : RemoteWallet D) :
  refreshWallets now1 now2 (h, rw)
  = if scans now1 rw then
      match rw_wallets rw with
      | [] =>
          (h ++ [new_wallet {| Scheme := rw_scheme rw;
                               Path := VeriteemSigningServer |}
                   (rw_makeDriver rw (rw_signingServer rw))],
           updateFeed_Send
             (set_refreshed now2 (set_wallets [length h] rw))
             {| Wallet := length h; Kind := WalletArrived |})
      | _ :: _ => (h, set_refreshed now2 rw)
      end
    else (h, rw).
Proof.
  unfold refreshWallets, scans. case_bool_decide; [reflexivity|].
  simpl. destruct (rw_wallets rw); reflexivity.
Qed.

Lemma refreshWallets_updating (now1 now2 : Time) (h : heap)
    (rw : RemoteWallet D) :
  rw_updating (refreshWallets now1 now2 (h, rw)).2 = rw_updating rw
  /\ rw_updateScope (refreshWallets now1 now2 (h, rw)).2
     = rw_updateScope rw.
Proof.
  rewrite refreshWallets_cases.
  destruct (scans now1 rw); [|split; reflexivity].
  destruct (rw_wallets rw); split; reflexivity.
Qed.

Lemma fold_updateFeed_Send_updating (evs : list WalletEvent)
    (rw : RemoteWallet D) :
  rw_updating (fold_left updateFeed_Send evs rw) = rw_updating rw.
Proof.
  revert rw. induction evs as [|ev evs IH]; intros rw; [reflexivity|].
  simpl. rewrite IH. reflexivity.
Qed.

Lemma refreshWallets_configuration (now1 now2 : Time) (h : heap)
    (rw : RemoteWallet D) :
  rw_signingServer (refreshWallets now1 now2 (h, rw)).2 = rw_signingServer rw
  /\ rw_scheme (refreshWallets now1 now2 (h, rw)).2 = rw_scheme rw.
Proof.
  rewrite refreshWallets_cases.
  destruct (scans now1 rw); [|split; reflexivity].
  destruct (rw_wallets rw); split; reflexivity.
Qed.

Lemma newRemoteWallet_configuration (scheme : string)
    (server : SigningServer) (makeDriver : SigningServer -> D)
    (now1 now2 : Time) :
  rw_signingServer (newRemoteWallet scheme server makeDriver now1 now2).2
  = server
  /\ rw_scheme (newRemoteWallet scheme server makeDriver now1 now2).2
     = scheme.
Proof.
  unfold newRemoteWallet. cbv zeta.
  rewrite (proj1 (refreshWallets_configuration _ _ _ _)).
  rewrite (proj2 (refreshWallets_configuration _ _ _ _)).
  split; reflexivity.
Qed.

(** C5. When the time elapsed since the last refresh is below 500
    milliseconds, [refreshWallets] returns at once and leaves the registry
    (wallet list, refresh time stamp, event feed) and the wallet objects as
    they are; otherwise it sets the time stamp to the current time, also
    when the wallet list is not empty and no wallet is made; so of two
    calls of [Wallets] whose clock readings are less than 500 milliseconds
    apart, at most one scans. *)
Theorem refreshWallets_throttled (now1 now2 : Time) (h : heap)
    (rw : RemoteWallet D) :
  (time_Since now1 (rw_refreshed rw) < 500 * Millisecond ->
   scans now1 rw = false /\ refreshWallets now1 now2 (h, rw) = (h, rw))
  /\ (~ time_Since now1 (rw_refreshed rw) < 500 * Millisecond ->
      scans now1 rw = true
      /\ rw_refreshed (refreshWallets now1 now2 (h, rw)).2 = now2
      /\ (rw_wallets rw <> [] ->
          refreshWallets now1 now2 (h, rw) = (h, set_refreshed now2 rw)))
  /\ (forall later1 later2,
        now1 <= now2 ->
        later1 - now1 < 500 * Millisecond ->
        let s1 := (Wallets now1 now2 (h, rw)).1 in
        scans now1 rw && scans later1 s1.2 = false
        /\ (scans now1 rw = true -> (Wallets later1 later2 s1).1 = s1)).
Proof.
  split; [|split].
  - intros Hlt. apply scans_false in Hlt.
    split; [exact Hlt|]. rewrite refreshWallets_cases, Hlt. reflexivity.
  - intros Hge. apply scans_true in Hge. split; [exact Hge|].
    rewrite refreshWallets_cases, Hge.
    destruct (rw_wallets rw); split; try reflexivity; congruence.
  - intros later1 later2 Hmono Hnear s1.
    destruct (scans now1 rw) eqn:Hs; [|split; [reflexivity|discriminate]].
    assert (Hr : rw_refreshed s1.2 = now2).
    { subst s1. unfold Wallets. cbn [fst snd].
      rewrite refreshWallets_cases, Hs. destruct (rw_wallets rw); reflexivity. }
    assert (Hs2 : scans later1 s1.2 = false).
    { apply scans_false. rewrite Hr. unfold time_Since.
      apply (Time_Sub_lt _ _ _ refreshThrottling_range).
      unfold refreshThrottling. lia. }
    split; [exact Hs2|]. intros _. unfold Wallets. cbn [fst snd].
    destruct s1 as [h1 rw1]. rewrite refreshWallets_cases.
    cbn [fst snd] in Hs2. rewrite Hs2. reflexivity.
Qed.

(** C6. When the list of tracked wallets is empty and the throttling
    window has elapsed, [Wallets] returns exactly one wallet: a new object
    whose URL has the scheme of the registry and, as path, the address of
    the signing service [VeriteemSigningServer] (the address
    [NewVeriteemWallet] gives the registry's signing server), bound to a
    driver made by the registry's factory; and the feed receives exactly one
    more event, [WalletArrived] for that wallet. *)
Theorem Wallets_first_scan (now1 now2 : Time) (h : heap)
    (rw : RemoteWallet D) :
  rw_wallets rw = [] ->
  ~ time_Since now1 (rw_refreshed rw) < refreshThrottling ->
  exists (p : nat) (w : wallet D) (h' : heap) (rw' : RemoteWallet D),
    Wallets now1 now2 (h, rw) = ((h', rw'), [p])
    /\ p = length h /\ h' = h ++ [w] /\ h' !! p = Some w
    /\ Scheme (w_url w) = rw_scheme rw
    /\ Path (w_url w) = VeriteemSigningServer
    /\ (ss_serverURL (rw_signingServer rw) = VeriteemSigningServer ->
        Path (w_url w) = ss_serverURL (rw_signingServer rw))
    /\ w_driver w = rw_makeDriver rw (rw_signingServer rw)
    /\ w_paths w = None /\ w_healthQuit w = None
    /\ rw_wallets rw' = [p]
    /\ rw_updateFeed rw'
       = rw_updateFeed rw ++ [{| Wallet := p; Kind := WalletArrived |}].
Proof.
  intros Hempty Hge. apply scans_true in Hge.
  eexists _, _, _, _. unfold Wallets.
  rewrite refreshWallets_cases, Hge, Hempty. simpl.
  split; [reflexivity|]. split; [reflexivity|]. split; [reflexivity|].
  split; [apply list_lookup_middle; reflexivity|].
  split; [reflexivity|]. split; [reflexivity|].
  split; [intros ->; reflexivity|]. repeat split.
Qed.

(** *** The updater goroutine *)

Lemma Subscribe_spec (rw : RemoteWallet D) :
  (Subscribe rw).2 = negb (rw_updating rw)
  /\ rw_updating (Subscribe rw).1 = true
  /\ rw_updateScope (Subscribe rw).1 = Datatypes.S (rw_updateScope rw).
Proof.
  unfold Subscribe. cbn [rw_updating set_updateScope].
  destruct (rw_updating rw) eqn:Hup; cbn; rewrite ?Hup;
    split; try split; reflexivity.
Qed.

Lemma updater_check_spec (rw : RemoteWallet D) :
  (updater_check rw).2 = bool_decide (rw_updateScope rw = 0%nat)
  /\ ((updater_check rw).2 = true -> rw_updating (updater_check rw).1 = false)
  /\ ((updater_check rw).2 = false -> (updater_check rw).1 = rw).
Proof.
  unfold updater_check. case_bool_decide; simpl; repeat split; discriminate.
Qed.

Lemma single_updater_step (s s' : registry_state D) :
  registry_step s s' ->
  length (rs_updaters s) = updaters_of (rw_updating (rs_registry s)) ->
  length (rs_updaters s') = updaters_of (rw_updating (rs_registry s')).
Proof.
  intros Hstep. destruct Hstep as
    [now1 now2 h rw us|h rw us|h rw us Hpos|h rw us h' evs
    |now1 now2 h rw us i Hi|h rw us i Hi];
    cbn [rs_updaters rs_registry]; intros Hinv.
  - rewrite (proj1 (refreshWallets_updating now1 now2 h rw)). exact Hinv.
  - destruct (Subscribe_spec rw) as (Hgo & Hup & _). rewrite Hgo, Hup.
    destruct (rw_updating rw); cbn in *; [exact Hinv|].
    rewrite length_app, Hinv. reflexivity.
  - exact Hinv.
  - rewrite fold_updateFeed_Send_updating. exact Hinv.
  - rewrite (proj1 (refreshWallets_updating now1 now2 h rw)), length_insert.
    exact Hinv.
  - assert (Hup : rw_updating rw = true).
    { apply lookup_lt_Some in Hi. rewrite Hinv in Hi.
      destruct (rw_updating rw); [reflexivity|simpl in Hi; lia]. }
    destruct (updater_check_spec rw) as (_ & Hstop & Hgoon).
    destruct (updater_check rw).2.
    + rewrite (Hstop eq_refl), length_delete by (eexists; exact Hi).
      rewrite Hinv, Hup. reflexivity.
    + rewrite (Hgoon eq_refl), length_insert. exact Hinv.
Qed.

(** C7. In every state a registry can reach, the number of live updater
    goroutines is one when [updating] is true and zero when it is false, so
    there is never more than one; [Subscribe] executes [go updater()]
    exactly when it finds [updating] false, and leaves it true; and the
    updater returns exactly when it finds no live subscription in its
    locked section, where it sets [updating] to false, and otherwise
    changes nothing there. *)
Theorem single_updater (s : registry_state D) :
  registry_reachable s ->
  (length (rs_updaters s) <= 1)%nat
  /\ (rw_updating (rs_registry s) = true <-> length (rs_updaters s) = 1%nat)
  /\ (forall rw : RemoteWallet D,
        (Subscribe rw).2 = negb (rw_updating rw)
        /\ rw_updating (Subscribe rw).1 = true)
  /\ (forall rw : RemoteWallet D,
        (updater_check rw).2 = bool_decide (rw_updateScope rw = 0%nat)
        /\ ((updater_check rw).2 = true ->
            rw_updating (updater_check rw).1 = false)
        /\ ((updater_check rw).2 = false -> (updater_check rw).1 = rw)).
Proof.
  intros Hreach.
  assert (Hinv : length (rs_updaters s)
                 = updaters_of (rw_updating (rs_registry s))).
  { induction Hreach as [scheme server makeDriver now1 now2|s s' _ IH Hstep].
    - cbn [rs_updaters rs_registry]. unfold newRemoteWallet.
      rewrite (proj1 (refreshWallets_updating _ _ _ _)). reflexivity.
    - exact (single_updater_step _ _ Hstep IH). }
  split; [|split; [|split]].
  - rewrite Hinv. destruct (rw_updating (rs_registry s)); simpl; lia.
  - rewrite Hinv. destruct (rw_updating (rs_registry s)); simpl;
      split; (reflexivity || discriminate).
  - intros rw. destruct (Subscribe_spec rw) as (H1 & H2 & _).
    split; assumption.
  - exact updater_check_spec.
Qed.

End RegistryProperties.

(** ** Concrete runs *)

(** A rogue backend: the signed transaction is dropped. *)
Lemma SignTx_signer_mismatch_witness :
  wallet_SignTx plain_hex alice transfer (Some 1) (cached_wallet rogue)
  = Returns
      (set_driver rogue
         (CallSignTx alice transfer (Some 1) (mallory, Some transfer, None))
         (cached_wallet rogue),
       (None, Some (signer_mismatch plain_hex (Account_Address alice) mallory)))
  /\ (None : option Transaction,
      Some (signer_mismatch plain_hex (Account_Address alice) mallory))
     = (None, Some (signer_mismatch plain_hex (Account_Address alice) mallory)).
Proof.
  split; [reflexivity|].
  refine (proj1 (SignTx_signer_mismatch plain_hex alice transfer (Some 1)
                   (cached_wallet rogue) _ _ eq_refl)
            mallory (Some transfer) eq_refl _).
  discriminate.
Defined.

(** An honest backend: the signed transaction is returned. *)
Example SignTx_honest :
  wallet_SignTx plain_hex alice transfer (Some 1) (cached_wallet honest)
  = Returns
      (set_driver honest
         (CallSignTx alice transfer (Some 1)
            (Account_Address alice, Some transfer, None))
         (cached_wallet honest),
       (Some transfer, None)).
Proof. reflexivity. Qed.

(** [bob] is not cached: the driver is not asked. *)
Lemma SignTx_unknown_account_witness :
  Forall (fun acct =>
            bytes_Equal (common.Bytes (Account_Address bob))
                        (common.Bytes (Account_Address acct)) = false)
         (w_accounts (cached_wallet rogue))
  /\ wallet_SignTx plain_hex bob transfer (Some 1) (cached_wallet rogue)
     = Returns (cached_wallet rogue, (None, Some ErrUnknownAccount)).
Proof.
  assert (H : Forall (fun acct =>
                        bytes_Equal (common.Bytes (Account_Address bob))
                          (common.Bytes (Account_Address acct)) = false)
                     (w_accounts (cached_wallet rogue))).
  { repeat constructor. }
  split; [exact H|].
  exact (SignTx_unknown_account plain_hex bob transfer (Some 1)
           (cached_wallet rogue) H).
Defined.

(** A driver that fails to open once: the first [Open] returns its error
    and the wallet stays closed, the second opens it. *)
Lemma Open_already_open_and_retry_witness :
  let w := new_wallet wallet_url {| failures_left := 1 |} in
  let e := library_error "connection refused" in
  let w1 := set_driver {| failures_left := 0 |} (CallOpen "" (Some e)) w in
  stateLock_Lock [] = true
  /\ w_paths w = None
  /\ wallet_Open [] 0 1%nat "" w = Some (w1, Some e, [])
  /\ w_paths w1 = None /\ w_healthQuit w1 = None
  /\ exists w2,
       wallet_Open [task_in_select] 0 2%nat "" w1
       = Some (w2, None,
               [go_heartbeat;
                go_updateFeed_Send {| Wallet := 0; Kind := WalletOpened |}])
       /\ w_paths w2 = Some [] /\ w_healthQuit w2 = Some 2%nat.
Proof.
  intros w e w1.
  assert (Hlock : stateLock_Lock [] = true) by reflexivity.
  assert (Hclosed : w_paths w = None) by reflexivity.
  assert (Hfails : driver_Open "" (w_driver w)
                   = ({| failures_left := 0 |}, Some e)) by reflexivity.
  destruct (proj2 (proj2 (proj2
              (Open_already_open_and_retry [] 0 1%nat "" w Hlock)))
              {| failures_left := 0 |} e Hclosed Hfails)
    as (Hrun & Hp & _ & Hq & _ & Hretry).
  split; [exact Hlock|]. split; [reflexivity|]. split; [exact Hrun|].
  split; [exact Hp|]. split; [exact (Hq eq_refl)|].
  assert (Hlock' : stateLock_Lock [task_in_select] = true) by reflexivity.
  assert (Hopens : driver_Open "" (w_driver w1)
                   = ({| failures_left := 0 |}, None)) by reflexivity.
  exact (Hretry [task_in_select] 2%nat "" {| failures_left := 0 |}
           Hlock' Hopens).
Defined.

(** A closed wallet whose driver answers [ErrWalletAlreadyOpen]: [Open]
    returns that error and every field of the wallet is as before, although
    [paths] is [nil]. *)
Lemma Open_AlreadyOpen_on_closed_wallet :
  let w := new_wallet wallet_url refusing in
  ~ ((exists w' g,
        wallet_Open [] 0 1%nat "" w = Some (w', Some ErrWalletAlreadyOpen, g)
        /\ wallet_fields w' = wallet_fields w)
     -> w_paths w <> None).
Proof.
  intros w Himp. apply Himp; [|reflexivity].
  exists (set_driver refusing (CallOpen "" (Some ErrWalletAlreadyOpen)) w), [].
  split; reflexivity.
Qed.

(** An open wallet refuses a second [Open] and is left as it was, while its
    goroutine is in the [select]; once the goroutine is on [commsLock] the
    second [Open] does not return. *)
Example Open_twice :
  wallet_Open [task_in_select] 0 2%nat "" (open_wallet honest)
  = Some (open_wallet honest, Some ErrWalletAlreadyOpen, [])
  /\ wallet_Open [task_on_commsLock] 0 2%nat "" (open_wallet honest) = None.
Proof. split; reflexivity. Qed.

(** The driver's close fails and the handshake reports an error: [Close]
    returns the reported error; with a [nil] reply it returns [nil]. *)
Lemma Close_returns_heartbeat_error_witness :
  let handshake := fun (_ : chan) (w : wallet stub) =>
                     Some (w, Some (library_error "late")) in
  let quiet := fun (_ : chan) (w : wallet stub) =>
                 Some (w, None : option error) in
  let w' := (wallet_close (set_healthQuit None (open_wallet broken))).1 in
  w_healthQuit (open_wallet broken) <> None
  /\ wallet_Close 5%nat handshake (open_wallet broken)
     = Some (w', Some (library_error "late"))
  /\ wallet_Close 5%nat quiet (open_wallet broken) = Some (w', None)
  /\ w_accounts w' = [] /\ w_paths w' = None /\ w_healthQuit w' = None
  /\ w_calls w' = [CallClose (Some (library_error "close failed"))].
Proof.
  intros handshake quiet w'.
  assert (Hq : w_healthQuit (open_wallet broken) <> None) by discriminate.
  assert (Hh : handshake 5%nat (open_wallet broken)
               = Some (open_wallet broken, Some (library_error "late")))
    by reflexivity.
  assert (Hn : quiet 5%nat (open_wallet broken)
               = Some (open_wallet broken, None)) by reflexivity.
  pose proof (proj1 (proj2 (proj2 (proj2 (proj2
                (Close_returns_heartbeat_error 5%nat handshake
                   (open_wallet broken))))))
                (open_wallet broken) (Some (library_error "late")) Hq Hh)
    as Hrun.
  pose proof (proj1 (proj2 (proj2 (proj2 (proj2
                (Close_returns_heartbeat_error 5%nat quiet
                   (open_wallet broken))))))
                (open_wallet broken) None Hq Hn) as Hquiet.
  destruct (proj2 (proj2 (proj2 (proj2 (proj2 (proj2
              (Close_returns_heartbeat_error 5%nat handshake
                 (open_wallet broken)))))))
              w' (Some (library_error "late")) Hrun)
    as (_ & Ha & Hp & Hq').
  split; [exact Hq|]. split; [exact Hrun|]. split; [exact Hquiet|].
  split; [exact Ha|]. split; [exact Hp|]. split; [exact Hq'|]. reflexivity.
Defined.

(** A wallet just opened: the goroutine takes the request, replies [nil]
    once and returns, and [Close] returns [nil]. *)
Lemma heartbeat_termination_handshake_witness :
  w_healthQuit (open_wallet honest) = Some 1%nat
  /\ heartbeat [quit_request 7%nat; heartbeatCycle_elapsed]
       (open_wallet honest)
     = (open_wallet honest, task_returned, [(7%nat, None)])
  /\ wallet_Close 7%nat (heartbeat_handshake []) (open_wallet honest)
     = Some ((wallet_close (set_healthQuit None (open_wallet honest))).1,
             None).
Proof.
  destruct (heartbeat_termination_handshake (open_wallet honest) 1%nat
              eq_refl) as (Hreply & _ & _ & Hclose).
  split; [reflexivity|]. split.
  - exact (Hreply [] (open_wallet honest) [] 7%nat
             [heartbeatCycle_elapsed] eq_refl ltac:(discriminate)).
  - exact (Hclose 7%nat).
Defined.

(** With a token in [commsLock] the goroutine runs its heartbeats and is
    back in the [select] for the request. *)
Example heartbeat_after_two_cycles :
  let w := set_commsLock (Some 1%nat) (open_wallet honest) in
  heartbeat [heartbeatCycle_elapsed; heartbeatCycle_elapsed;
             quit_request 7%nat] w
  = (set_driver honest (CallHeartbeat None)
       (set_driver honest (CallHeartbeat None) w),
     task_returned, [(7%nat, None)]).
Proof. reflexivity. Qed.

(** A failing heartbeat tears the wallet down and the goroutine goes on. *)
Example heartbeat_failure_closes :
  let w := set_commsLock (Some 1%nat) (open_wallet broken) in
  (w_paths (heartbeat [heartbeatCycle_elapsed] w).1.1,
   w_healthQuit (heartbeat [heartbeatCycle_elapsed] w).1.1,
   w_calls (heartbeat [heartbeatCycle_elapsed] w).1.1,
   (heartbeat [heartbeatCycle_elapsed] w).1.2)
  = (None, Some 1%nat,
     [CallHeartbeat (Some (library_error "timeout"));
      CallClose (Some (library_error "close failed"))],
     task_in_select).
Proof. reflexivity. Qed.

(** C8.  The wallet of the registry [NewVeriteemWallet] returns, opened
    and one heartbeat cycle later.  Its [commsLock] is [nil], so the
    heartbeat goroutine is on the receive from it: the termination request
    [Close] sends on [healthQuit] is not taken, no reply is sent on the
    supplied channel, the goroutine does not return, and [Close] does not
    return. *)
Theorem termination_request_unanswered :
  let s := NewVeriteemWallet tt (1000 * Second) (1000 * Second) in
  exists w0 w : wallet (VeriteemDriver * unit),
    s.1 !! 0%nat = Some w0
    /\ rw_wallets s.2 = [0%nat]
    /\ wallet_Open [] 0 1%nat "" w0
       = Some (w, None,
               [go_heartbeat;
                go_updateFeed_Send {| Wallet := 0; Kind := WalletOpened |}])
    /\ w_paths w = Some [] /\ w_healthQuit w = Some 1%nat
    /\ w_commsLock w = None
    /\ heartbeat [heartbeatCycle_elapsed; quit_request 7%nat] w
       = (w, task_on_commsLock, [])
    /\ wallet_Close 7%nat (heartbeat_handshake [heartbeatCycle_elapsed]) w
       = None.
Proof.
  intros s. eexists _, _. vm_compute. repeat split.
Qed.

(** The wallet of the registry has a [nil] [commsLock], and [Open] does not
    make one: after the first heartbeat cycle its goroutine is on the
    receive from [commsLock] and takes no request. *)
Example heartbeat_of_registry_wallet :
  let w := (wallet_Open_locked 0 1%nat "" (new_wallet wallet_url honest)).1.1 in
  w_commsLock w = None
  /\ heartbeat [heartbeatCycle_elapsed; quit_request 7%nat] w
     = (w, task_on_commsLock, [])
  /\ wallet_Close 7%nat (heartbeat_handshake [heartbeatCycle_elapsed]) w
     = None.
Proof. repeat split. Qed.

(** The Veriteem driver over the loopback library signs for [alice]. *)
Lemma VeriteemDriver_SignTx_signer_witness :
  let s := (newVeriteemDriver sample_server, tt) in
  VeriteemDriver_SignTx alice transfer (Some 1) s
  = Returns (s, (Account_Address alice, Some transfer, None))
  /\ Account_Address alice = Account_Address alice
  /\ wallet_SignTx Address_Hex alice transfer (Some 1) (cached_wallet s)
     = Returns
         (set_driver s
            (CallSignTx alice transfer (Some 1)
               (Account_Address alice, Some transfer, None))
            (cached_wallet s),
          (Some transfer, None)).
Proof.
  intros s. split; [reflexivity|]. split; [|reflexivity].
  exact (proj1 (VeriteemDriver_SignTx_signer alice transfer (Some 1))
           s s (Account_Address alice) (Some transfer) eq_refl).
Defined.

(** A contract creation has no recipient: the driver panics. *)
Example VeriteemDriver_SignTx_contract_creation :
  VeriteemDriver_SignTx alice
    {| AccountNonce := 0; Price := 1; GasLimit := 21000; Recipient := None;
       Amount := 0; Payload := []; sig_V := 0; sig_R := 0; sig_S := 0 |}
    (Some 1) (newVeriteemDriver sample_server, tt)
  = Panics.
Proof. reflexivity. Qed.

(** The registry [NewVeriteemWallet] returns has the package constants as
    its scheme and as the address of its signing server. *)
Lemma NewVeriteemWallet_configuration (World : Type) (net : World)
    (now1 now2 : Time) :
  ss_serverURL (rw_signingServer (NewVeriteemWallet net now1 now2).2)
  = VeriteemSigningServer
  /\ rw_scheme (NewVeriteemWallet net now1 now2).2 = RemoteWalletScheme.
Proof.
  split.
  - exact (f_equal ss_serverURL
             (proj1 (newRemoteWallet_configuration _ _ _ now1 now2))).
  - exact (proj2 (newRemoteWallet_configuration _ _ _ now1 now2)).
Qed.

(** The Veriteem driver's heartbeat on a wallet that holds a token. *)
Example VeriteemDriver_heartbeat_run :
  let s := (newVeriteemDriver sample_server, tt) in
  let w := set_commsLock (Some 1%nat) (open_wallet s) in
  heartbeat [heartbeatCycle_elapsed; heartbeatCycle_elapsed] w
  = (set_driver s (CallHeartbeat None) (set_driver s (CallHeartbeat None) w),
     task_in_select, []).
Proof. reflexivity. Qed.

(** A registry refreshed when the clock read 1000 s: a call 100 ms later is
    throttled, a call at 2000 s refreshes the time stamp without making a
    wallet, and a call 200 ms after that one does not scan. *)
Lemma refreshWallets_throttled_witness :
  let h := rs_heap started_registry in
  let rw := rs_registry started_registry in
  let t1 := 1000 * Second + 100 * Millisecond in
  let t2 := 2000 * Second in
  (time_Since t1 (rw_refreshed rw) < 500 * Millisecond
   /\ refreshWallets t1 t1 (h, rw) = (h, rw))
  /\ (~ time_Since t2 (rw_refreshed rw) < 500 * Millisecond
      /\ rw_wallets rw <> []
      /\ rw_refreshed (refreshWallets t2 (t2 + 1) (h, rw)).2 = t2 + 1
      /\ refreshWallets t2 (t2 + 1) (h, rw) = (h, set_refreshed (t2 + 1) rw))
  /\ (t2 <= t2 + 1
      /\ (t2 + 200 * Millisecond) - t2 < 500 * Millisecond
      /\ scans t2 rw
         && scans (t2 + 200 * Millisecond) (Wallets t2 (t2 + 1) (h, rw)).1.2
         = false).
Proof.
  intros h rw t1 t2.
  assert (Hnear : time_Since t1 (rw_refreshed rw) < 500 * Millisecond)
    by (vm_compute; reflexivity).
  assert (Hfar : ~ time_Since t2 (rw_refreshed rw) < 500 * Millisecond)
    by (vm_compute; discriminate).
  assert (Hfull : rw_wallets rw <> []) by (vm_compute; discriminate).
  assert (Hmono : t2 <= t2 + 1) by (vm_compute; discriminate).
  assert (Hgap : (t2 + 200 * Millisecond) - t2 < 500 * Millisecond)
    by (vm_compute; reflexivity).
  split; [|split].
  - split; [exact Hnear|].
    exact (proj2 (proj1 (refreshWallets_throttled t1 t1 h rw) Hnear)).
  - destruct (proj1 (proj2 (refreshWallets_throttled t2 (t2 + 1) h rw)) Hfar)
      as (_ & Hstamp & Hsame).
    split; [exact Hfar|]. split; [exact Hfull|]. split; [exact Hstamp|].
    exact (Hsame Hfull).
  - split; [exact Hmono|]. split; [exact Hgap|].
    exact (proj1 (proj2 (proj2 (refreshWallets_throttled t2 (t2 + 1) h rw))
                    (t2 + 200 * Millisecond) (t2 + 200 * Millisecond)
                    Hmono Hgap)).
Defined.

(** The first scan of a registry makes the wallet at address 0. *)
Lemma Wallets_first_scan_witness :
  rw_wallets empty_registry = []
  /\ ~ time_Since (1000 * Second) (rw_refreshed empty_registry)
       < refreshThrottling
  /\ exists (p : nat) (w : wallet stub) (h' : heap)
            (rw' : RemoteWallet stub),
       Wallets (1000 * Second) (1000 * Second) ([], empty_registry)
       = ((h', rw'), [p])
       /\ p = 0%nat /\ h' = [w] /\ h' !! p = Some w
       /\ Scheme (w_url w) = RemoteWalletScheme
       /\ Path (w_url w) = VeriteemSigningServer
       /\ rw_updateFeed rw' = [{| Wallet := p; Kind := WalletArrived |}].
Proof.
  assert (Hempty : rw_wallets empty_registry = []) by reflexivity.
  assert (Hfar : ~ time_Since (1000 * Second) (rw_refreshed empty_registry)
                   < refreshThrottling) by (vm_compute; discriminate).
  split; [exact Hempty|]. split; [exact Hfar|].
  destruct (Wallets_first_scan (1000 * Second) (1000 * Second) []
              empty_registry Hempty Hfar)
    as (p & w & h' & rw' & Hrun & Hp & Hh & Hlook & Hs & Hpath & _ & _ & _
        & _ & _ & Hfeed).
  exists p, w, h', rw'.
  split; [exact Hrun|]. split; [exact Hp|]. split; [exact Hh|].
  split; [exact Hlook|]. split; [exact Hs|]. split; [exact Hpath|].
  exact Hfeed.
Defined.

Example Wallets_of_new_registry :
  (Wallets (1000 * Second) (1000 * Second) ([], empty_registry)).2 = [0%nat]
  /\ (Wallets (1000 * Second + 1) (1000 * Second + 1)
        (Wallets (1000 * Second) (1000 * Second) ([], empty_registry)).1).2
     = [0%nat].
Proof. vm_compute. split; reflexivity. Qed.

Lemma subscribed_registry_reachable : registry_reachable subscribed_registry.
Proof.
  apply (reachable_step started_registry).
  - exact (reachable_new RemoteWalletScheme sample_server (fun _ => honest)
             (1000 * Second) (1000 * Second)).
  - exact (step_Subscribe (rs_heap started_registry)
             (rs_registry started_registry) (rs_updaters started_registry)).
Defined.

(** After [newRemoteWallet] and one [Subscribe] one updater runs. *)
Lemma single_updater_witness :
  registry_reachable subscribed_registry
  /\ (length (rs_updaters subscribed_registry) <= 1)%nat
  /\ (rw_updating (rs_registry subscribed_registry) = true
      <-> length (rs_updaters subscribed_registry) = 1%nat).
Proof.
  split; [exact subscribed_registry_reachable|].
  destruct (single_updater subscribed_registry subscribed_registry_reachable)
    as (Hle & Hiff & _).
  split; [exact Hle|exact Hiff].
Defined.

Example subscribed_registry_updaters :
  rs_updaters subscribed_registry = [at_Sleep]
  /\ rw_updating (rs_registry subscribed_registry) = true
  /\ rw_updateScope (rs_registry subscribed_registry) = 1%nat.
Proof. vm_compute. repeat split. Qed.

(** ** Further properties of the wallet *)

Section WalletBehaviour.
Context {D : Type} `{!driver D}.
Variable Address_Hex : common.Address -> string.

Lemma wallet_Contains_In (account : Account) (w : wallet D) :
  wallet_Contains account w = true <->
  In (Account_Address account) (map Account_Address (w_accounts w)).
Proof.
  unfold wallet_Contains. rewrite Contains_loop_true, Exists_exists, in_map_iff.
  unfold common.Bytes. split; intros (acct & H1 & H2).
  - exists acct. split; [|apply list_elem_of_In]; assumption.
  - exists acct. split; [apply list_elem_of_In|]; assumption.
Qed.

Lemma wallet_SignTx_empty_cache (account : Account) (tx : Transaction)
    (chainID : option Z) (w : wallet D) :
  w_accounts w = [] ->
  wallet_SignTx Address_Hex account tx chainID w
  = Returns (w, (None, Some ErrUnknownAccount)).
Proof.
  intros Hempty. unfold wallet_SignTx, wallet_Contains. rewrite Hempty.
  reflexivity.
Qed.

(** X1. When the driver lists its accounts without error, [Accounts]
    returns that list and caches it, and from then on [Contains] accepts
    exactly the accounts whose address is in the list, whatever their
    URL. *)
Theorem Accounts_then_Contains (w : wallet D) (d : D) (accts : list Account) :
  driver_ReadAccounts (w_driver w) = (d, (accts, None)) ->
  (wallet_Accounts w).2 = accts
  /\ w_accounts (wallet_Accounts w).1 = accts
  /\ forall account,
       wallet_Contains account (wallet_Accounts w).1 = true
       <-> In (Account_Address account) (map Account_Address accts).
Proof.
  intros Hd.
  assert (Hrun : wallet_Accounts w
                 = (set_accounts accts
                      (set_driver d (CallReadAccounts (accts, None)) w),
                    accts)).
  { unfold wallet_Accounts. rewrite Hd. reflexivity. }
  rewrite Hrun. split; [reflexivity|]. split; [reflexivity|].
  intros account. apply wallet_Contains_In.
Qed.

(** X2. When the driver fails to list its accounts, [Accounts] returns the
    empty list, yet the cached list is replaced by what the driver returned
    beside the error: the accounts cached before are forgotten.  The
    life-cycle fields are not touched. *)
Theorem Accounts_failure_replaces_cache (w : wallet D) (d : D)
    (accts : list Account) (e : error) :
  driver_ReadAccounts (w_driver w) = (d, (accts, Some e)) ->
  (wallet_Accounts w).2 = []
  /\ w_accounts (wallet_Accounts w).1 = accts
  /\ w_paths (wallet_Accounts w).1 = w_paths w
  /\ w_healthQuit (wallet_Accounts w).1 = w_healthQuit w
  /\ w_calls (wallet_Accounts w).1
     = w_calls w ++ [CallReadAccounts (accts, Some e)].
Proof.
  intros Hd. unfold wallet_Accounts. rewrite Hd. repeat split.
Qed.

(** X3. [SignTx] does not look at the life cycle of the wallet: whatever
    [paths] and [healthQuit] are, it gives the same result and asks the
    driver the same way, so a closed wallet whose cache holds the account
    still sends the transaction to the driver. *)
Theorem SignTx_ignores_life_cycle (account : Account) (tx : Transaction)
    (chainID : option Z) (w : wallet D)
    (p : option (list (common.Address * DerivationPath)))
    (q : option chan) :
  wallet_SignTx Address_Hex account tx chainID
    (set_healthQuit q (set_paths p w))
  = match wallet_SignTx Address_Hex account tx chainID w with
    | Returns (w', out) => Returns (set_healthQuit q (set_paths p w'), out)
    | Panics => Panics
    end.
Proof.
  unfold wallet_SignTx, wallet_Contains. simpl.
  case_bool_decide; [reflexivity|].
  destruct (driver_SignTx account tx chainID (w_driver w))
    as [[d [[sender signedTx] err]]|]; [|reflexivity].
  destruct err; [reflexivity|]. case_bool_decide; reflexivity.
Qed.

Lemma wallet_Open_frame (self : nat) (hq : chan) (passphrase : string)
    (w : wallet D) :
  w_accounts (wallet_Open_locked self hq passphrase w).1.1 = w_accounts w
  /\ w_commsLock (wallet_Open_locked self hq passphrase w).1.1 = w_commsLock w
  /\ w_url (wallet_Open_locked self hq passphrase w).1.1 = w_url w.
Proof.
  unfold wallet_Open_locked. case_bool_decide; [repeat split|].
  destruct (driver_Open passphrase (w_driver w)) as [d [e|]]; repeat split.
Qed.

(** X4. A wallet as the registry makes it has an empty cache and [Open]
    (which gets the lock: the wallet has no goroutine yet) does not fill
    it: until [Accounts] is called, [SignTx] on the opened wallet answers
    [ErrUnknownAccount] for every account and does not ask the driver. *)
Theorem SignTx_before_Accounts (url : URL) (d : D) (self : nat) (hq : chan)
    (passphrase : string) (account : Account) (tx : Transaction)
    (chainID : option Z) :
  wallet_Open [] self hq passphrase (new_wallet url d)
  = Some (wallet_Open_locked self hq passphrase (new_wallet url d))
  /\ let w :=
       (wallet_Open_locked self hq passphrase (new_wallet url d)).1.1 in
     wallet_SignTx Address_Hex account tx chainID w
     = Returns (w, (None, Some ErrUnknownAccount)).
Proof.
  split; [reflexivity|].
  intros w. apply wallet_SignTx_empty_cache. subst w.
  rewrite (proj1 (wallet_Open_frame _ _ _ _)). reflexivity.
Qed.

Lemma wallet_Close_closed (errc : chan)
    (handshake : chan -> wallet D -> option (wallet D * option error))
    (w : wallet D) :
  w_healthQuit w = None ->
  wallet_Close errc handshake w = Some ((wallet_close w).1, None).
Proof.
  intros Hq. unfold wallet_Close. rewrite Hq.
  replace (set_healthQuit None w) with w
    by (destruct w; simpl in Hq; subst; reflexivity).
  rewrite wallet_close_spec. reflexivity.
Qed.

(** X5. [Close] on a wallet whose [healthQuit] is [nil] (never opened, or
    closed before) takes part in no handshake, whoever would answer it: it
    returns [nil], and it calls the driver's close once more all the
    same. *)
Theorem Close_of_closed_wallet (errc : chan)
    (handshake : chan -> wallet D -> option (wallet D * option error))
    (w : wallet D) :
  w_healthQuit w = None ->
  exists w',
    wallet_Close errc handshake w = Some (w', None)
    /\ w_calls w' = w_calls w ++ [CallClose (driver_Close (w_driver w)).2]
    /\ w_paths w' = None /\ w_healthQuit w' = None /\ w_accounts w' = [].
Proof.
  intros Hq. exists (wallet_close w).1.
  split; [apply wallet_Close_closed; exact Hq|].
  rewrite wallet_close_spec. cbn. repeat split; try reflexivity. exact Hq.
Qed.

(** X6. Whenever [Close] returns, the cache is empty: [SignTx] on the
    closed wallet answers [ErrUnknownAccount] for every account, the ones
    cached before included, without asking the driver. *)
Theorem SignTx_after_Close (errc : chan)
    (handshake : chan -> wallet D -> option (wallet D * option error))
    (w w' : wallet D) (r : option error) (account : Account)
    (tx : Transaction) (chainID : option Z) :
  wallet_Close errc handshake w = Some (w', r) ->
  wallet_SignTx Address_Hex account tx chainID w'
  = Returns (w', (None, Some ErrUnknownAccount)).
Proof.
  intros Hrun. apply wallet_SignTx_empty_cache.
  unfold wallet_Close in Hrun.
  destruct (match w_healthQuit w with
            | Some _ => handshake errc w
            | None => Some (w, None)
            end) as [[w1 herr]|]; [|discriminate].
  rewrite wallet_close_spec in Hrun. injection Hrun as <- _. reflexivity.
Qed.

(** X7. Open, close, open again ([Open] gets the lock both times: before
    the first there is no goroutine, before the second the goroutine has
    returned): when the driver opens, [Open] on a closed wallet makes it
    open; [Close], answered by the heartbeat goroutine in
    its [select], returns [nil] and leaves the wallet closed with an empty
    cache, having called the driver's open and close once each; and [Open]
    then opens it again if the driver does. *)
Theorem Open_Close_Open (self : nat) (hq errc : chan) (passphrase : string)
    (w : wallet D) (d : D) :
  w_paths w = None ->
  driver_Open passphrase (w_driver w) = (d, None) ->
  let w1 := (wallet_Open_locked self hq passphrase w).1.1 in
  wallet_Open [] self hq passphrase w
  = Some (wallet_Open_locked self hq passphrase w)
  /\ (forall hq' passphrase' w2,
        wallet_Open [task_returned] self hq' passphrase' w2
        = Some (wallet_Open_locked self hq' passphrase' w2))
  /\ w_paths w1 = Some [] /\ w_healthQuit w1 = Some hq
  /\ exists w2,
       wallet_Close errc (heartbeat_handshake []) w1 = Some (w2, None)
       /\ w_paths w2 = None /\ w_healthQuit w2 = None /\ w_accounts w2 = []
       /\ w_calls w2
          = w_calls w ++ [CallOpen passphrase None;
                          CallClose (driver_Close d).2]
       /\ forall hq' passphrase' d',
            driver_Open passphrase' (w_driver w2) = (d', None) ->
            (wallet_Open_locked self hq' passphrase' w2).1.2 = None
            /\ w_paths (wallet_Open_locked self hq' passphrase' w2).1.1 = Some []
            /\ w_healthQuit (wallet_Open_locked self hq' passphrase' w2).1.1
               = Some hq'.
Proof.
  intros Hp Hd w1. subst w1.
  split; [reflexivity|]. split; [reflexivity|].
  rewrite (wallet_Open_closed self hq passphrase w d None Hp Hd).
  cbn [fst snd]. split; [reflexivity|]. split; [reflexivity|].
  eexists. split.
  - unfold wallet_Close, heartbeat_handshake, heartbeat. simpl.
    rewrite bool_decide_eq_true_2 by reflexivity.
    rewrite wallet_close_spec. reflexivity.
  - simpl. split; [reflexivity|]. split; [reflexivity|].
    split; [reflexivity|]. split; [rewrite <- app_assoc; reflexivity|].
    intros hq' passphrase' d' Hd'.
    erewrite wallet_Open_closed; [|reflexivity|exact Hd'].
    repeat split.
Qed.

End WalletBehaviour.

(** ** Further properties of the heartbeat goroutine *)

Section HeartbeatBehaviour.
Context {D : Type} `{!driver D}.

Lemma heartbeat_loop_frame (evs : list select_outcome) :
  forall (errc : option chan) (w w' : wallet D) (e : loop_end),
    heartbeat_loop evs errc None w = (w', e) ->
    w_url w' = w_url w /\ w_healthQuit w' = w_healthQuit w
    /\ w_commsLock w' = w_commsLock w.
Proof.
  induction evs as [|ev evs IH]; intros errc w w' e Hrun;
    rewrite heartbeat_loop_unfold in Hrun; simpl in Hrun.
  - destruct (bool_decide (errc = None)); injection Hrun as <- _;
      repeat split.
  - destruct (bool_decide (errc = None)); simpl in Hrun;
      [|injection Hrun as <- _; repeat split].
    destruct ev as [c|].
    + destruct (w_healthQuit w) eqn:Hhq; rewrite <- Hhq;
        exact (IH _ _ _ _ Hrun).
    + destruct (w_commsLock w) as [[|n]|] eqn:Hc;
        try (injection Hrun as <- _; rewrite Hc; repeat split).
      destruct (driver_Heartbeat (w_driver w)) as [d r].
      destruct (IH _ _ _ _ Hrun) as (Hu & Hq & Hl).
      destruct r; rewrite ?wallet_close_spec in Hu, Hq, Hl;
        simpl in Hu, Hq, Hl; rewrite Hu, Hq, Hl; repeat split.
Qed.

(** X8. Nothing the heartbeat goroutine does changes the URL of the
    wallet, its [healthQuit] channel or the number of tokens in
    [commsLock]: every token taken for a heartbeat is put back, also when
    the heartbeat fails and the wallet is torn down. *)
Theorem heartbeat_returns_token (evs : list select_outcome) (w : wallet D) :
  w_url (heartbeat evs w).1.1 = w_url w
  /\ w_healthQuit (heartbeat evs w).1.1 = w_healthQuit w
  /\ w_commsLock (heartbeat evs w).1.1 = w_commsLock w.
Proof.
  rewrite heartbeat_wallet.
  destruct (heartbeat_loop evs None None w) as [w' e] eqn:Hrun.
  exact (heartbeat_loop_frame _ _ _ _ _ Hrun).
Qed.

(** X9. When a token is available and the driver's heartbeat fails, the
    goroutine tears the wallet down ([paths] nil, cache empty, the driver's
    close called) but leaves [healthQuit] set, drops the error and is back
    in its [select]: a termination request that follows is still answered
    with [nil]. *)
Theorem heartbeat_failure_tears_down (w : wallet D) (n : nat) (d : D)
    (e : error) (q errc : chan) :
  w_commsLock w = Some (Datatypes.S n) ->
  w_healthQuit w = Some q ->
  driver_Heartbeat (w_driver w) = (d, Some e) ->
  exists w',
    heartbeat [heartbeatCycle_elapsed] w = (w', task_in_select, [])
    /\ heartbeat [heartbeatCycle_elapsed; quit_request errc] w
       = (w', task_returned, [(errc, None)])
    /\ w_paths w' = None /\ w_accounts w' = []
    /\ w_healthQuit w' = Some q
    /\ w_calls w' = w_calls w ++ [CallHeartbeat (Some e);
                                  CallClose (driver_Close d).2].
Proof.
  intros Hc Hq Hd. eexists. unfold heartbeat.
  rewrite !heartbeat_loop_unfold. simpl. rewrite Hc. simpl. rewrite Hd.
  rewrite wallet_close_spec. simpl. rewrite Hq.
  split; [reflexivity|]. split; [reflexivity|].
  simpl. rewrite <- app_assoc. repeat split. exact Hq.
Qed.

Lemma heartbeat_loop_no_healthQuit (evs : list select_outcome) :
  forall (w w' : wallet D) (e : loop_end),
    w_healthQuit w = None ->
    heartbeat_loop evs None None w = (w', e) ->
    e = loop_in_select \/ e = loop_on_commsLock.
Proof.
  induction evs as [|ev evs IH]; intros w w' e Hq Hrun;
    rewrite heartbeat_loop_unfold in Hrun; simpl in Hrun.
  - injection Hrun as _ <-. left. reflexivity.
  - destruct ev as [c|].
    + rewrite Hq in Hrun. exact (IH _ _ _ Hq Hrun).
    + destruct (w_commsLock w) as [[|n]|];
        try (injection Hrun as _ <-; right; reflexivity).
      destruct (driver_Heartbeat (w_driver w)) as [d r].
      apply IH in Hrun; [exact Hrun|].
      destruct r; rewrite ?wallet_close_spec; simpl; exact Hq.
Qed.

(** X10. A heartbeat goroutine of a wallet whose [healthQuit] is [nil]
    takes no termination request: as long as nothing else sets the field,
    whatever its [select] yields, it does not return and sends no reply. *)
Theorem heartbeat_without_healthQuit (evs : list select_outcome)
    (w : wallet D) :
  w_healthQuit w = None ->
  (heartbeat evs w).1.2 <> task_returned /\ (heartbeat evs w).2 = [].
Proof.
  intros Hq. unfold heartbeat.
  destruct (heartbeat_loop evs None None w) as [w' e] eqn:Hrun.
  destruct (heartbeat_loop_no_healthQuit _ _ _ _ Hq Hrun) as [-> | ->];
    split; (discriminate || reflexivity).
Qed.

(** X11. The wallet the registry makes has a [nil] [commsLock] and [Open]
    does not make the channel.  So once such a wallet is opened and the
    heartbeat cycle has elapsed, its goroutine stays on the receive from
    [commsLock]: it takes no termination request, whatever follows, and
    [Close] never gets its reply. *)
Theorem Close_after_heartbeat_cycle (url : URL) (d d' : D) (self : nat)
    (hq errc : chan) (passphrase : string)
    (evs before : list select_outcome) :
  driver_Open passphrase d = (d', None) ->
  let w := (wallet_Open_locked self hq passphrase (new_wallet url d)).1.1 in
  wallet_Open [] self hq passphrase (new_wallet url d)
  = Some (wallet_Open_locked self hq passphrase (new_wallet url d))
  /\ w_commsLock w = None
  /\ w_healthQuit w = Some hq
  /\ heartbeat (heartbeatCycle_elapsed :: evs) w = (w, task_on_commsLock, [])
  /\ wallet_Close errc (heartbeat_handshake (heartbeatCycle_elapsed :: before))
       w = None.
Proof.
  intros Hd w.
  assert (Hw : w = set_healthQuit (Some hq)
                     (set_paths (Some [])
                        (set_driver d' (CallOpen passphrase None)
                           (new_wallet url d)))).
  { subst w.
    rewrite (wallet_Open_closed self hq passphrase (new_wallet url d) d' None
               eq_refl Hd). reflexivity. }
  assert (Hc : w_commsLock w = None) by (rewrite Hw; reflexivity).
  assert (Hq : w_healthQuit w = Some hq) by (rewrite Hw; reflexivity).
  split; [reflexivity|]. split; [exact Hc|]. split; [exact Hq|].
  split; [exact (heartbeat_nil_commsLock _ _ Hc)|].
  unfold wallet_Close, heartbeat_handshake. rewrite Hq.
  rewrite <- app_comm_cons, (heartbeat_nil_commsLock _ _ Hc). reflexivity.
Qed.

End HeartbeatBehaviour.

(** ** Further properties of the Veriteem driver and the signing server *)

Section VeriteemBehaviour.
Context {World : Type} `{!Library World}.

(** X12. A new driver is offline; [Open] never fails, for any passphrase
    and in any state, and leaves the driver online at version 1.0.0;
    [Close] never fails and leaves it offline; neither touches the signing
    server or the failure. *)
Theorem VeriteemDriver_Open_Close (server : SigningServer)
    (passphrase : string) (w : VeriteemDriver) :
  VeriteemDriver_offline (newVeriteemDriver server) = true
  /\ (VeriteemDriver_Open passphrase w).2 = None
  /\ version (VeriteemDriver_Open passphrase w).1 = (x01, x00, x00)
  /\ VeriteemDriver_offline (VeriteemDriver_Open passphrase w).1 = false
  /\ (VeriteemDriver_Close w).2 = None
  /\ VeriteemDriver_offline (VeriteemDriver_Close w).1 = true
  /\ VeriteemDriver_offline
       (VeriteemDriver_Close (VeriteemDriver_Open passphrase w).1).1 = true
  /\ signingServer (VeriteemDriver_Open passphrase w).1 = signingServer w
  /\ failure (VeriteemDriver_Open passphrase w).1 = failure w
  /\ signingServer (VeriteemDriver_Close w).1 = signingServer w
  /\ failure (VeriteemDriver_Close w).1 = failure w.
Proof. repeat split. Qed.

(** X13. With the Veriteem driver, [Open] on a wallet has three outcomes:
    it does not return, when a heartbeat goroutine of the wallet is on the
    receive from [commsLock] and so keeps the state lock; or it gets the
    lock and the wallet is closed, and then becomes open, with no error and
    without the network being used; or it gets the lock and the wallet is
    open already, and [ErrWalletAlreadyOpen] is returned with the wallet
    left as it was.  So when this [Open] returns, it returns
    [ErrWalletAlreadyOpen] exactly when [paths] is not [nil]. *)
Theorem Veriteem_wallet_Open (tasks : list task_status) (self : nat)
    (hq : chan) (passphrase : string)
    (w : wallet (VeriteemDriver * World)) :
  (In task_on_commsLock tasks
   /\ wallet_Open tasks self hq passphrase w = None)
  \/ (~ In task_on_commsLock tasks
      /\ w_paths w = None
      /\ exists w',
           wallet_Open tasks self hq passphrase w
           = Some (w', None,
                   [go_heartbeat;
                    go_updateFeed_Send
                      {| Wallet := self; Kind := WalletOpened |}])
           /\ w_paths w' = Some []
           /\ w_healthQuit w' = Some hq
           /\ (w_driver w').2 = (w_driver w).2)
  \/ (~ In task_on_commsLock tasks
      /\ w_paths w <> None
      /\ wallet_Open tasks self hq passphrase w
         = Some (w, Some ErrWalletAlreadyOpen, [])).
Proof.
  assert (Hlock : stateLock_Lock tasks = true
                  <-> ~ In task_on_commsLock tasks).
  { unfold stateLock_Lock. rewrite forallb_forall. split.
    - intros Hall Hin. specialize (Hall _ Hin). discriminate.
    - intros Hnin t Hin. destruct t; try reflexivity. contradiction. }
  destruct (stateLock_Lock tasks) eqn:Hl.
  - right. pose proof (proj1 Hlock eq_refl) as Hnin.
    rewrite (wallet_Open_free _ _ _ _ _ Hl).
    destruct (w_paths w) as [p|] eqn:Hp.
    + right. split; [exact Hnin|]. split; [discriminate|].
      rewrite wallet_Open_already_open by (rewrite Hp; discriminate).
      reflexivity.
    + left. split; [exact Hnin|]. split; [reflexivity|].
      erewrite wallet_Open_closed; [|exact Hp|reflexivity].
      eexists. split; [reflexivity|]. repeat split.
  - left. split; [|apply wallet_Open_blocked; exact Hl].
    destruct (in_dec (fun a b : task_status =>
                        ltac:(decide equality) : {a = b} + {a <> b})
                task_on_commsLock tasks) as [Hin|Hnin]; [exact Hin|].
    apply Hlock in Hnin. congruence.
Qed.

(** X14. Whenever [VeriteemDriver.SignTx] returns, the driver object is as
    it was (only the network moved on); and whenever it returns an error,
    the address returned is the zero address and the transaction is
    [nil]. *)
Theorem VeriteemDriver_SignTx_error (account : Account) (tx : Transaction)
    (chainID : option Z) (s s' : VeriteemDriver * World)
    (sender : common.Address) (signedTx : option Transaction)
    (err : option error) :
  VeriteemDriver_SignTx account tx chainID s
  = Returns (s', (sender, signedTx, err)) ->
  s'.1 = s.1
  /\ (err <> None -> sender = common.zeroAddress /\ signedTx = None).
Proof.
  destruct s as [w net]. intros Hrun. unfold VeriteemDriver_SignTx in Hrun.
  repeat case_match; simplify_eq; (split; [reflexivity|]);
    intros Hne; (split; reflexivity) || (exfalso; apply Hne; reflexivity).
Qed.

(** X15. [VeriteemDriver.SignTx] panics on every contract creation (a
    transaction without recipient), for any account, chain and state, and
    so does [wallet.SignTx] over this driver once the account is cached;
    a transaction with a recipient makes it return as soon as the URL of
    the signing request is one [http.NewRequest] accepts. *)
Theorem VeriteemDriver_SignTx_contract_creation_panics (account : Account)
    (tx : Transaction) (chainID : option Z) (s : VeriteemDriver * World) :
  (Recipient tx = None ->
   VeriteemDriver_SignTx account tx chainID s = Panics
   /\ forall w : wallet (VeriteemDriver * World),
        wallet_Contains account w = true ->
        wallet_SignTx Address_Hex account tx chainID w = Panics)
  /\ (Recipient tx <> None ->
      http_valid_url (ss_serverURL (signingServer s.1) +:+ "/SignTx") = true ->
      VeriteemDriver_SignTx account tx chainID s <> Panics).
Proof.
  split.
  - intros Hr.
    assert (Hp : forall s0, VeriteemDriver_SignTx account tx chainID s0
                            = Panics).
    { intros [w0 net0]. unfold VeriteemDriver_SignTx. rewrite Hr.
      reflexivity. }
    split; [apply Hp|].
    intros w Hc. unfold wallet_SignTx.
    rewrite bool_decide_eq_false_2 by (rewrite Hc; discriminate).
    cbn [driver_SignTx VeriteemDriver_driver]. rewrite Hp. reflexivity.
  - destruct s as [w net]. cbn [fst]. intros Hr Hurl.
    unfold VeriteemDriver_SignTx, SigningServer_SignTx.
    destruct (Recipient tx) as [to|]; [|congruence].
    rewrite Hurl. repeat case_match; discriminate.
Qed.

End VeriteemBehaviour.

Section VeriteemStatus.
Context {World : Type} `{!Library World}.
Variable fmt_Sprintf_Failed : error -> string.
Variable fmt_Sprintf_online : byte -> byte -> byte -> string.

(** X16. No method of the driver ever sets [failure]: [Open], [Close],
    [Heartbeat], [Derive], [ReadAccounts] and every returning [SignTx]
    leave it as it was.  So a driver whose [failure] is [nil], as
    [newVeriteemDriver] makes it, keeps it [nil], and [Status] then
    returns no error and the "online" text with the current version, also
    for a closed driver (version 0.0.0). *)
Theorem VeriteemDriver_failure_kept (w : VeriteemDriver) (net : World) :
  (forall passphrase, failure (VeriteemDriver_Open passphrase w).1 = failure w)
  /\ failure (VeriteemDriver_Close w).1 = failure w
  /\ failure (VeriteemDriver_Heartbeat w).1 = failure w
  /\ (forall path, failure (VeriteemDriver_Derive path w).1 = failure w)
  /\ failure (VeriteemDriver_ReadAccounts (w, net)).1.1 = failure w
  /\ (forall account tx chainID s' r,
        VeriteemDriver_SignTx account tx chainID (w, net) = Returns (s', r) ->
        failure s'.1 = failure w)
  /\ failure (newVeriteemDriver (signingServer w)) = None
  /\ (failure w = None ->
      VeriteemDriver_Status fmt_Sprintf_Failed fmt_Sprintf_online w
      = (fmt_Sprintf_online (version w).1.1 (version w).1.2 (version w).2,
         None)
      /\ VeriteemDriver_Status fmt_Sprintf_Failed fmt_Sprintf_online
           (VeriteemDriver_Close w).1
         = (fmt_Sprintf_online x00 x00 x00, None)).
Proof.
  split; [reflexivity|]. split; [reflexivity|]. split; [reflexivity|].
  split; [reflexivity|]. split.
  { unfold VeriteemDriver_ReadAccounts.
    destruct (SigningServer_ReadAccountsFromServer (signingServer w) net)
      as [net' [acct err]]. reflexivity. }
  split.
  { intros account tx chainID s' [[sender signedTx] err] Hrun.
    pose proof (VeriteemDriver_SignTx_error _ _ _ _ _ _ _ _ Hrun) as [Hs _].
    rewrite Hs. reflexivity. }
  split; [reflexivity|].
  intros Hf. unfold VeriteemDriver_Status. simpl. rewrite Hf.
  destruct (version w) as [[v0 v1] v2]. split; reflexivity.
Qed.

End VeriteemStatus.

Section SigningServerBehaviour.
Context {World : Type} `{!Library World}.

Lemma convert_accounts_spec (sc : SigningServer) (names : list string) :
  length (convert_accounts sc names) = length names
  /\ map Account_Address (convert_accounts sc names)
     = map common_HexToAddress names
  /\ Forall (fun acct => Account_URL acct
                         = {| Scheme := ss_scheme sc;
                              Path := ss_serverURL sc |})
            (convert_accounts sc names).
Proof.
  unfold convert_accounts. split; [apply length_map|]. split.
  - rewrite map_map. reflexivity.
  - apply Forall_forall. intros acct Hin.
    apply list_elem_of_In, in_map_iff in Hin.
    destruct Hin as (name & <- & _). reflexivity.
Qed.

(** X17. [ReadAccountsFromServer] sends its request to
    [serverURL/ListAccounts].  When the request fails it returns the empty
    list with that error.  Otherwise it returns no error and one account
    per name of the answer, in order, none dropped: the address is the name
    converted, and the URL of every account is the scheme and the URL of
    the signing server. *)
Theorem ReadAccountsFromServer_accounts (sc : SigningServer)
    (net net' : World) (buf : list byte) (err : option error) :
  http_Get (ss_serverURL sc +:+ "/ListAccounts") net = (net', (buf, err)) ->
  match err with
  | Some e =>
      SigningServer_ReadAccountsFromServer sc net = (net', ([], Some e))
  | None =>
      exists accts,
        SigningServer_ReadAccountsFromServer sc net = (net', (accts, None))
        /\ length accts = length (Accounts (json_Unmarshal_responseJSON buf))
        /\ map Account_Address accts
           = map common_HexToAddress
               (Accounts (json_Unmarshal_responseJSON buf))
        /\ Forall (fun acct => Account_URL acct
                               = {| Scheme := ss_scheme sc;
                                    Path := ss_serverURL sc |}) accts
  end.
Proof.
  intros Hget. unfold SigningServer_ReadAccountsFromServer. rewrite Hget.
  destruct err as [e|]; [reflexivity|].
  eexists. split; [reflexivity|]. apply convert_accounts_spec.
Qed.

(** X18. With the Veriteem driver, a failed listing empties the cache:
    when the request of [Accounts] fails, [Accounts] returns the empty
    list, and [SignTx] on the wallet it leaves answers [ErrUnknownAccount]
    for every account, the ones cached before included, without a request
    to the server. *)
Theorem Veriteem_failed_listing (w : wallet (VeriteemDriver * World))
    (net' : World) (buf : list byte) (e : error) (account : Account)
    (tx : Transaction) (chainID : option Z) :
  http_Get (ss_serverURL (signingServer (w_driver w).1) +:+ "/ListAccounts")
           (w_driver w).2 = (net', (buf, Some e)) ->
  (wallet_Accounts w).2 = []
  /\ w_accounts (wallet_Accounts w).1 = []
  /\ w_driver (wallet_Accounts w).1 = ((w_driver w).1, net')
  /\ wallet_SignTx Address_Hex account tx chainID (wallet_Accounts w).1
     = Returns ((wallet_Accounts w).1, (None, Some ErrUnknownAccount)).
Proof.
  intros Hget.
  assert (Hrun : wallet_Accounts w
                 = (set_accounts []
                      (set_driver ((w_driver w).1, net')
                         (CallReadAccounts ([], Some e)) w), [])).
  { unfold wallet_Accounts.
    cbn [driver_ReadAccounts VeriteemDriver_driver].
    unfold VeriteemDriver_ReadAccounts.
    destruct (w_driver w) as [drv net] eqn:Hdrv. cbn [fst snd] in Hget |- *.
    pose proof (ReadAccountsFromServer_accounts _ _ _ _ _ Hget) as Hread.
    cbn in Hread. rewrite Hread. reflexivity. }
  rewrite Hrun. split; [reflexivity|]. split; [reflexivity|].
  split; [reflexivity|]. apply wallet_SignTx_empty_cache. reflexivity.
Qed.

(** X19. [NewAccount] never makes an account: for every passphrase and
    server it returns the zero account and the error "Cannot create
    account", because [SigningServerRequest] always returns a [nil] error
    and that is the case [NewAccount] rejects. *)
Theorem NewAccount_always_fails (passPhrase : string) (sc : SigningServer) :
  SigningServer_SigningServerRequest sc = (common.zeroAddress, None)
  /\ SigningServer_NewAccount passPhrase sc
     = (zeroAccount, Some (errors_New "Cannot create account")).
Proof. split; reflexivity. Qed.

End SigningServerBehaviour.

(** ** Further properties of the registry *)

Section RegistryBehaviour.
Context {D : Type}.

Lemma refreshWallets_tracked (now1 now2 : Time) (h : @heap D)
    (rw : RemoteWallet D) :
  rw_wallets rw <> [] ->
  (refreshWallets now1 now2 (h, rw)).1 = h
  /\ rw_wallets (refreshWallets now1 now2 (h, rw)).2 = rw_wallets rw
  /\ rw_updateFeed (refreshWallets now1 now2 (h, rw)).2 = rw_updateFeed rw.
Proof.
  intros Hne. rewrite refreshWallets_cases.
  destruct (scans now1 rw); [|repeat split].
  destruct (rw_wallets rw) eqn:Hw; [congruence|].
  cbn. rewrite Hw. repeat split.
Qed.

Lemma refreshWallets_at_most_one (now1 now2 : Time) (h : @heap D)
    (rw : RemoteWallet D) :
  (length (rw_wallets rw) <= 1)%nat ->
  (length (rw_wallets (refreshWallets now1 now2 (h, rw)).2) <= 1)%nat.
Proof.
  intros Hle. rewrite refreshWallets_cases.
  destruct (scans now1 rw); [|exact Hle].
  destruct (rw_wallets rw) eqn:Hw; [simpl; lia|].
  cbn. rewrite Hw. exact Hle.
Qed.

Lemma fold_updateFeed_Send_wallets (evs : list WalletEvent)
    (rw : RemoteWallet D) :
  rw_wallets (fold_left updateFeed_Send evs rw) = rw_wallets rw.
Proof.
  revert rw. induction evs as [|ev evs IH]; intros rw; [reflexivity|].
  simpl. rewrite IH. reflexivity.
Qed.

(** X20. A registry never tracks more than one wallet: in every state
    reachable from [newRemoteWallet], through calls of [Wallets],
    [Subscribe], cancellations, wallet activity and updater rounds, the
    list of wallets has at most one entry. *)
Theorem registry_single_wallet (s : registry_state D) :
  registry_reachable s ->
  (length (rw_wallets (rs_registry s)) <= 1)%nat.
Proof.
  intros Hreach.
  induction Hreach as [scheme server makeDriver now1 now2|s s' _ IH Hstep].
  - cbn [rs_registry]. unfold newRemoteWallet.
    apply refreshWallets_at_most_one. simpl. lia.
  - destruct Hstep as
      [now1 now2 h rw us|h rw us|h rw us Hpos|h rw us h' evs
      |now1 now2 h rw us i Hi|h rw us i Hi]; cbn [rs_registry] in *.
    + apply refreshWallets_at_most_one. exact IH.
    + unfold Subscribe. cbn. destruct (rw_updating rw); exact IH.
    + exact IH.
    + rewrite fold_updateFeed_Send_wallets. exact IH.
    + apply refreshWallets_at_most_one. exact IH.
    + unfold updater_check. case_bool_decide; exact IH.
Qed.

Lemma newRemoteWallet_scans (scheme : string) (server : SigningServer)
    (makeDriver : SigningServer -> D) (now1 now2 : Time) :
  zeroTime + refreshThrottling <= now1 ->
  newRemoteWallet scheme server makeDriver now1 now2
  = ([new_wallet {| Scheme := scheme; Path := VeriteemSigningServer |}
        (makeDriver server)],
     {| rw_signingServer := server; rw_scheme := scheme;
        rw_makeDriver := makeDriver; rw_refreshed := now2;
        rw_wallets := [0%nat];
        rw_updateFeed := [{| Wallet := 0%nat; Kind := WalletArrived |}];
        rw_updateScope := 0%nat; rw_updating := false |}).
Proof.
  intros Hclock. unfold newRemoteWallet. cbv zeta.
  etransitivity; [apply refreshWallets_cases|].
  assert (Hs : scans now1
                 {| rw_signingServer := server; rw_scheme := scheme;
                    rw_makeDriver := makeDriver; rw_refreshed := zeroTime;
                    rw_wallets := []; rw_updateFeed := [];
                    rw_updateScope := 0%nat; rw_updating := false |} = true).
  { apply scans_true. cbn [rw_refreshed]. unfold time_Since.
    change (500 * Millisecond) with refreshThrottling.
    rewrite (Time_Sub_lt _ _ _ refreshThrottling_range). lia. }
  rewrite Hs. reflexivity.
Qed.

Lemma Wallets_calls_tracked (times : list (Time * Time)) :
  forall (h : @heap D) (rw : RemoteWallet D),
    rw_wallets rw <> [] ->
    (Wallets_calls times (h, rw)).1.1 = h
    /\ rw_wallets (Wallets_calls times (h, rw)).1.2 = rw_wallets rw
    /\ rw_updateFeed (Wallets_calls times (h, rw)).1.2 = rw_updateFeed rw
    /\ Forall (fun l => l = rw_wallets rw) (Wallets_calls times (h, rw)).2.
Proof.
  induction times as [|[now1 now2] times IH]; intros h rw Hne.
  - repeat split. constructor.
  - cbn [Wallets_calls]. unfold Wallets.
    destruct (refreshWallets_tracked now1 now2 h rw Hne) as (Hh & Hw & Hf).
    destruct (refreshWallets now1 now2 (h, rw)) as [h1 rw1].
    cbn [fst snd] in *. subst h1.
    assert (Hne1 : rw_wallets rw1 <> []) by (rewrite Hw; exact Hne).
    destruct (IH h rw1 Hne1) as (IHh & IHw & IHf & IHl).
    destruct (Wallets_calls times (h, rw1)) as [[h2 rw2] ls].
    cbn [fst snd] in *. rewrite Hw in IHw, IHl. rewrite Hf in IHf.
    split; [exact IHh|]. split; [exact IHw|]. split; [exact IHf|].
    constructor; [exact Hw|exact IHl].
Qed.

(** X21. When the clock is at least 500 ms past the zero time,
    [newRemoteWallet] itself makes the wallet: the registry it returns
    tracks the wallet at address 0, with the given scheme and the path
    [VeriteemSigningServer], and the [WalletArrived] event has been sent
    already.  Every later call of [Wallets], at any time, returns that same
    wallet and makes no wallet and sends no event. *)
Theorem Wallets_after_newRemoteWallet (scheme : string)
    (server : SigningServer) (makeDriver : SigningServer -> D)
    (now1 now2 : Time) (times : list (Time * Time)) :
  zeroTime + refreshThrottling <= now1 ->
  let s0 := newRemoteWallet scheme server makeDriver now1 now2 in
  s0.1 = [new_wallet {| Scheme := scheme; Path := VeriteemSigningServer |}
            (makeDriver server)]
  /\ rw_wallets s0.2 = [0%nat]
  /\ rw_updateFeed s0.2 = [{| Wallet := 0%nat; Kind := WalletArrived |}]
  /\ (Wallets_calls times s0).1.1 = s0.1
  /\ rw_updateFeed (Wallets_calls times s0).1.2 = rw_updateFeed s0.2
  /\ Forall (fun l => l = [0%nat]) (Wallets_calls times s0).2.
Proof.
  intros Hclock s0. subst s0.
  rewrite (newRemoteWallet_scans _ _ _ _ _ Hclock). cbn [fst snd].
  split; [reflexivity|]. split; [reflexivity|]. split; [reflexivity|].
  match goal with
  | |- context [Wallets_calls times (?h, ?rw)] =>
      destruct (Wallets_calls_tracked times h rw ltac:(discriminate))
        as (Hh & _ & Hf & Hl)
  end.
  split; [exact Hh|]. split; [exact Hf|exact Hl].
Qed.

(** X22. A round of the updater ends the goroutine exactly when no
    subscription is live at its check, whatever the refresh did, and then
    [updating] is false; otherwise [updating] and the count are as before.
    So after [Subscribe] and the cancellation of that only subscription the
    next round ends the updater, and a [Subscribe] after that starts a new
    one. *)
Theorem updater_round_stops (now1 now2 : Time) (h : @heap D)
    (rw : RemoteWallet D) :
  (updater_round now1 now2 (h, rw)).2
  = bool_decide (rw_updateScope rw = 0%nat)
  /\ ((updater_round now1 now2 (h, rw)).2 = true ->
      rw_updating (updater_round now1 now2 (h, rw)).1.2 = false)
  /\ ((updater_round now1 now2 (h, rw)).2 = false ->
      rw_updating (updater_round now1 now2 (h, rw)).1.2 = rw_updating rw)
  /\ rw_updateScope (updater_round now1 now2 (h, rw)).1.2 = rw_updateScope rw
  /\ (rw_updateScope rw = 0%nat ->
      let rw' := Unsubscribe (Subscribe rw).1 in
      (updater_round now1 now2 (h, rw')).2 = true
      /\ (Subscribe (updater_round now1 now2 (h, rw')).1.2).2 = true).
Proof.
  assert (Hround : forall rw0 : RemoteWallet D,
             (updater_round now1 now2 (h, rw0)).2
             = bool_decide (rw_updateScope rw0 = 0%nat)
             /\ ((updater_round now1 now2 (h, rw0)).2 = true ->
                 rw_updating (updater_round now1 now2 (h, rw0)).1.2 = false)
             /\ ((updater_round now1 now2 (h, rw0)).2 = false ->
                 rw_updating (updater_round now1 now2 (h, rw0)).1.2
                 = rw_updating rw0)
             /\ rw_updateScope (updater_round now1 now2 (h, rw0)).1.2
                = rw_updateScope rw0).
  { intros rw0. unfold updater_round.
    destruct (refreshWallets_updating now1 now2 h rw0) as [Hu Hc].
    destruct (refreshWallets now1 now2 (h, rw0)) as [h1 rw1].
    cbn [fst snd] in *. unfold updater_check. rewrite Hc.
    case_bool_decide; cbn; rewrite ?Hu, ?Hc; repeat split;
      try discriminate. }
  destruct (Hround rw) as (H1 & H2 & H3 & H4).
  split; [exact H1|]. split; [exact H2|]. split; [exact H3|].
  split; [exact H4|].
  intros Hzero rw'.
  destruct (Hround rw') as (H1' & H2' & _ & _).
  assert (Hstop : (updater_round now1 now2 (h, rw')).2 = true).
  { rewrite H1'. apply bool_decide_eq_true. subst rw'.
    unfold Unsubscribe, Subscribe. cbn.
    destruct (rw_updating rw); cbn; exact Hzero. }
  split; [exact Hstop|].
  rewrite (proj1 (Subscribe_spec _)), (H2' Hstop). reflexivity.
Qed.

End RegistryBehaviour.

Section VeriteemRegistry.
Context {World : Type} `{!Library World}.

(** X23. In the registry [NewVeriteemWallet] returns (clock at least 500
    ms past the zero time), the accounts that [Accounts] of the tracked
    wallet returns all carry the URL of that wallet: both are the scheme
    [RemoteWalletScheme] with the path [VeriteemSigningServer]. *)
Theorem NewVeriteemWallet_account_URLs (net : World) (now1 now2 : Time) :
  zeroTime + refreshThrottling <= now1 ->
  exists w : wallet (VeriteemDriver * World),
    (NewVeriteemWallet net now1 now2).1 !! 0%nat = Some w
    /\ rw_wallets (NewVeriteemWallet net now1 now2).2 = [0%nat]
    /\ w_url w = {| Scheme := RemoteWalletScheme;
                    Path := VeriteemSigningServer |}
    /\ Forall (fun acct => Account_URL acct = w_url w) (wallet_Accounts w).2.
Proof.
  intros Hclock. unfold NewVeriteemWallet. cbv zeta.
  rewrite (newRemoteWallet_scans _ _ _ _ _ Hclock). cbn [fst snd].
  eexists. split; [reflexivity|]. split; [reflexivity|].
  split; [reflexivity|].
  unfold wallet_Accounts. cbn [driver_ReadAccounts VeriteemDriver_driver].
  unfold VeriteemDriver_ReadAccounts, SigningServer_ReadAccountsFromServer.
  cbn [w_driver new_wallet signingServer newVeriteemDriver ss_serverURL].
  destruct (http_Get (VeriteemSigningServer +:+ "/ListAccounts") net)
    as [net' [buf [e|]]]; cbn; [constructor|].
  exact (proj2 (proj2 (convert_accounts_spec
                         {| ss_serverURL := VeriteemSigningServer;
                            ss_scheme := RemoteWalletScheme;
                            ss_connected := false; ss_failed := false;
                            ss_cache := {| all := []; lastMod := zeroTime |} |}
                         (Accounts (json_Unmarshal_responseJSON buf))))).
Qed.

End VeriteemRegistry.

(** ** Further concrete runs *)

Lemma Accounts_then_Contains_witness :
  driver_ReadAccounts (w_driver (new_wallet wallet_url honest))
  = (honest, ([alice], None))
  /\ (wallet_Accounts (new_wallet wallet_url honest)).2 = [alice]
  /\ wallet_Contains alice (wallet_Accounts (new_wallet wallet_url honest)).1
     = true
  /\ wallet_Contains bob (wallet_Accounts (new_wallet wallet_url honest)).1
     <> true.
Proof.
  assert (Hd : driver_ReadAccounts (w_driver (new_wallet wallet_url honest))
               = (honest, ([alice], None))) by reflexivity.
  destruct (Accounts_then_Contains (new_wallet wallet_url honest) honest
              [alice] Hd) as (Hret & _ & Hin).
  split; [exact Hd|]. split; [exact Hret|]. split.
  - apply (proj2 (Hin alice)). left. reflexivity.
  - intros Hc. apply (proj1 (Hin bob)) in Hc.
    destruct Hc as [Hc|[]]. discriminate Hc.
Defined.

Lemma Accounts_failure_replaces_cache_witness :
  w_accounts (cached_wallet broken) = [alice]
  /\ driver_ReadAccounts (w_driver (cached_wallet broken))
     = (broken, ([], Some (library_error "connection refused")))
  /\ (wallet_Accounts (cached_wallet broken)).2 = []
  /\ w_accounts (wallet_Accounts (cached_wallet broken)).1 = [].
Proof.
  assert (Hd : driver_ReadAccounts (w_driver (cached_wallet broken))
               = (broken, ([], Some (library_error "connection refused"))))
    by reflexivity.
  destruct (Accounts_failure_replaces_cache (cached_wallet broken) broken []
              (library_error "connection refused") Hd) as (Hret & Hc & _).
  split; [reflexivity|]. split; [exact Hd|]. split; [exact Hret|exact Hc].
Defined.

(** A closed wallet with [alice] cached sends the transaction on. *)
Example SignTx_on_closed_wallet :
  w_paths (cached_wallet honest) = None
  /\ wallet_SignTx plain_hex alice transfer (Some 1) (cached_wallet honest)
     = Returns
         (set_driver honest
            (CallSignTx alice transfer (Some 1)
               (Account_Address alice, Some transfer, None))
            (cached_wallet honest),
          (Some transfer, None)).
Proof. split; reflexivity. Qed.

Lemma Close_of_closed_wallet_witness :
  w_healthQuit (cached_wallet broken) = None
  /\ exists w',
       wallet_Close 5%nat (fun _ _ => None) (cached_wallet broken)
       = Some (w', None)
       /\ w_calls w' = [CallClose (Some (library_error "close failed"))]
       /\ w_accounts w' = [].
Proof.
  assert (Hq : w_healthQuit (cached_wallet broken) = None) by reflexivity.
  destruct (Close_of_closed_wallet 5%nat (fun _ _ => None)
              (cached_wallet broken) Hq)
    as (w' & Hrun & Hcalls & _ & _ & Ha).
  split; [exact Hq|]. exists w'.
  split; [exact Hrun|]. split; [exact Hcalls|exact Ha].
Defined.

Lemma SignTx_after_Close_witness :
  wallet_Close 7%nat (heartbeat_handshake []) (open_wallet honest)
  = Some ((wallet_close (set_healthQuit None (open_wallet honest))).1, None)
  /\ wallet_SignTx plain_hex alice transfer (Some 1)
       (wallet_close (set_healthQuit None (open_wallet honest))).1
     = Returns
         ((wallet_close (set_healthQuit None (open_wallet honest))).1,
          (None, Some ErrUnknownAccount)).
Proof.
  assert (Hrun : wallet_Close 7%nat (heartbeat_handshake [])
                   (open_wallet honest)
                 = Some ((wallet_close
                            (set_healthQuit None (open_wallet honest))).1,
                         None)) by reflexivity.
  split; [exact Hrun|].
  exact (SignTx_after_Close plain_hex 7%nat (heartbeat_handshake [])
           (open_wallet honest) _ None alice transfer (Some 1) Hrun).
Defined.

Lemma Open_Close_Open_witness :
  let w := new_wallet wallet_url honest in
  let w1 := (wallet_Open_locked 0 1%nat "" w).1.1 in
  w_paths w = None
  /\ w_paths w1 = Some [] /\ w_healthQuit w1 = Some 1%nat
  /\ exists w2,
       wallet_Close 7%nat (heartbeat_handshake []) w1 = Some (w2, None)
       /\ w_paths w2 = None
       /\ w_calls w2 = [CallOpen "" None; CallClose None]
       /\ (wallet_Open_locked 0 2%nat "" w2).1.2 = None.
Proof.
  intros w w1.
  assert (Hp : w_paths w = None) by reflexivity.
  assert (Hd : driver_Open "" (w_driver w) = (honest, None)) by reflexivity.
  destruct (Open_Close_Open 0 1%nat 7%nat "" w honest Hp Hd)
    as (_ & _ & Hp1 & Hq1 & w2 & Hrun & Hp2 & _ & _ & Hcalls & Hagain).
  split; [exact Hp|]. split; [exact Hp1|]. split; [exact Hq1|].
  exists w2. split; [exact Hrun|]. split; [exact Hp2|].
  split; [exact Hcalls|].
  assert (Hd2 : driver_Open "" (w_driver w2) = (honest, None)).
  { unfold wallet_Close, heartbeat_handshake in Hrun. simpl in Hrun.
    injection Hrun as <-. reflexivity. }
  exact (proj1 (Hagain 2%nat "" honest Hd2)).
Defined.

Lemma heartbeat_failure_tears_down_witness :
  let w := set_commsLock (Some 1%nat) (open_wallet broken) in
  w_commsLock w = Some 1%nat /\ w_healthQuit w = Some 1%nat
  /\ exists w',
       heartbeat [heartbeatCycle_elapsed; quit_request 7%nat] w
       = (w', task_returned, [(7%nat, None)])
       /\ w_paths w' = None /\ w_healthQuit w' = Some 1%nat.
Proof.
  intros w.
  assert (Hc : w_commsLock w = Some 1%nat) by reflexivity.
  assert (Hq : w_healthQuit w = Some 1%nat) by reflexivity.
  assert (Hd : driver_Heartbeat (w_driver w)
               = (broken, Some (library_error "timeout"))) by reflexivity.
  destruct (heartbeat_failure_tears_down w 0 broken (library_error "timeout")
              1%nat 7%nat Hc Hq Hd)
    as (w' & _ & Hrun & Hp & _ & Hq' & _).
  split; [exact Hc|]. split; [exact Hq|]. exists w'.
  split; [exact Hrun|]. split; [exact Hp|exact Hq'].
Defined.

Lemma heartbeat_without_healthQuit_witness :
  let w := set_commsLock (Some 1%nat) (cached_wallet honest) in
  let evs := [heartbeatCycle_elapsed; quit_request 7%nat;
              heartbeatCycle_elapsed] in
  w_healthQuit w = None
  /\ (heartbeat evs w).1.2 <> task_returned /\ (heartbeat evs w).2 = [].
Proof.
  intros w evs.
  assert (Hq : w_healthQuit w = None) by reflexivity.
  split; [exact Hq|]. exact (heartbeat_without_healthQuit evs w Hq).
Defined.

Lemma Close_after_heartbeat_cycle_witness :
  let w := (wallet_Open_locked 0 1%nat "" (new_wallet wallet_url honest)).1.1 in
  driver_Open "" honest = (honest, None)
  /\ w_commsLock w = None
  /\ heartbeat [heartbeatCycle_elapsed; quit_request 7%nat] w
     = (w, task_on_commsLock, [])
  /\ wallet_Close 7%nat (heartbeat_handshake [heartbeatCycle_elapsed]) w
     = None.
Proof.
  intros w.
  assert (Hd : driver_Open "" honest = (honest, None)) by reflexivity.
  destruct (Close_after_heartbeat_cycle wallet_url honest honest 0 1%nat
              7%nat "" [quit_request 7%nat] [] Hd)
    as (_ & Hc & _ & Hpark & Hclose).
  split; [exact Hd|]. split; [exact Hc|]. split; [exact Hpark|exact Hclose].
Defined.

(** The Veriteem driver over the canned library, network down. *)
Lemma VeriteemDriver_SignTx_error_witness :
  let s := (newVeriteemDriver sample_server, false) in
  VeriteemDriver_SignTx alice transfer (Some 1) s
  = Returns (s, (common.zeroAddress, None,
                 Some (library_error "connection refused")))
  /\ (common.zeroAddress : common.Address) = common.zeroAddress
  /\ (None : option Transaction) = None.
Proof.
  intros s.
  assert (Hrun : VeriteemDriver_SignTx alice transfer (Some 1) s
                 = Returns (s, (common.zeroAddress, None,
                                Some (library_error "connection refused"))))
    by reflexivity.
  split; [exact Hrun|].
  exact (proj2 (VeriteemDriver_SignTx_error alice transfer (Some 1) s s
                  common.zeroAddress None
                  (Some (library_error "connection refused")) Hrun)
           ltac:(discriminate)).
Defined.

Lemma VeriteemDriver_SignTx_contract_creation_panics_witness :
  let s := (newVeriteemDriver sample_server, tt) in
  Recipient deployment = None
  /\ VeriteemDriver_SignTx alice deployment (Some 1) s = Panics
  /\ wallet_SignTx Address_Hex alice deployment (Some 1) (cached_wallet s)
     = Panics
  /\ VeriteemDriver_SignTx alice transfer (Some 1) s <> Panics.
Proof.
  intros s.
  assert (Hr : Recipient deployment = None) by reflexivity.
  destruct (proj1 (VeriteemDriver_SignTx_contract_creation_panics alice
                     deployment (Some 1) s) Hr) as [Hdrv Hwallet].
  split; [exact Hr|]. split; [exact Hdrv|]. split.
  - apply Hwallet. reflexivity.
  - apply (proj2 (VeriteemDriver_SignTx_contract_creation_panics alice
                    transfer (Some 1) s)); [discriminate|reflexivity].
Defined.

Lemma VeriteemDriver_failure_kept_witness :
  let w := newVeriteemDriver sample_server in
  failure w = None
  /\ VeriteemDriver_Status (fun _ => "Failed") (fun _ _ _ => "online") w
     = ("online", None)
  /\ failure (VeriteemDriver_Heartbeat (VeriteemDriver_Open "" w).1).1 = None.
Proof.
  intros w.
  assert (Hf : failure w = None) by reflexivity.
  destruct (VeriteemDriver_failure_kept (fun _ => "Failed")
              (fun _ _ _ => "online") w tt)
    as (_ & _ & _ & _ & _ & _ & _ & Hstatus).
  split; [exact Hf|]. split; [exact (proj1 (Hstatus Hf))|reflexivity].
Defined.

Lemma ReadAccountsFromServer_accounts_witness :
  http_Get (ss_serverURL sample_server +:+ "/ListAccounts") true
  = (true, ([], None))
  /\ SigningServer_ReadAccountsFromServer sample_server true
     = (true, ([alice; bob], None))
  /\ http_Get (ss_serverURL sample_server +:+ "/ListAccounts") false
     = (false, ([], Some (library_error "connection refused")))
  /\ SigningServer_ReadAccountsFromServer sample_server false
     = (false, ([], Some (library_error "connection refused"))).
Proof.
  assert (Hup : http_Get (ss_serverURL sample_server +:+ "/ListAccounts") true
                = (true, ([], None))) by reflexivity.
  assert (Hdown : http_Get (ss_serverURL sample_server +:+ "/ListAccounts")
                    false
                  = (false, ([], Some (library_error "connection refused"))))
    by reflexivity.
  destruct (ReadAccountsFromServer_accounts sample_server true true [] None
              Hup) as (accts & Hrun & _).
  split; [exact Hup|]. split; [reflexivity|]. split; [exact Hdown|].
  exact (ReadAccountsFromServer_accounts sample_server false false []
           (Some (library_error "connection refused")) Hdown).
Defined.

Lemma Veriteem_failed_listing_witness :
  let w := cached_wallet (newVeriteemDriver sample_server, false) in
  w_accounts w = [alice]
  /\ (wallet_Accounts w).2 = []
  /\ wallet_SignTx Address_Hex alice transfer (Some 1) (wallet_Accounts w).1
     = Returns ((wallet_Accounts w).1, (None, Some ErrUnknownAccount)).
Proof.
  intros w.
  assert (Hget : http_Get
                   (ss_serverURL (signingServer (w_driver w).1)
                    +:+ "/ListAccounts") (w_driver w).2
                 = (false, ([], Some (library_error "connection refused"))))
    by reflexivity.
  destruct (Veriteem_failed_listing w false []
              (library_error "connection refused") alice transfer (Some 1)
              Hget) as (Hret & _ & _ & Hsign).
  split; [reflexivity|]. split; [exact Hret|exact Hsign].
Defined.

Lemma registry_single_wallet_witness :
  registry_reachable subscribed_registry
  /\ (length (rw_wallets (rs_registry subscribed_registry)) <= 1)%nat.
Proof.
  split; [exact subscribed_registry_reachable|].
  exact (registry_single_wallet subscribed_registry
           subscribed_registry_reachable).
Defined.

Lemma Wallets_after_newRemoteWallet_witness :
  let s0 := newRemoteWallet RemoteWalletScheme sample_server
              (fun _ => honest) (1000 * Second) (1000 * Second) in
  let times := [(1000 * Second + 1, 1000 * Second + 2);
                (5000 * Second, 5000 * Second)] in
  zeroTime + refreshThrottling <= 1000 * Second
  /\ rw_wallets s0.2 = [0%nat]
  /\ (Wallets_calls times s0).2 = [[0%nat]; [0%nat]]
  /\ rw_updateFeed (Wallets_calls times s0).1.2
     = [{| Wallet := 0%nat; Kind := WalletArrived |}].
Proof.
  intros s0 times.
  assert (Hclock : zeroTime + refreshThrottling <= 1000 * Second)
    by (vm_compute; discriminate).
  destruct (Wallets_after_newRemoteWallet RemoteWalletScheme sample_server
              (fun _ => honest) (1000 * Second) (1000 * Second) times Hclock)
    as (_ & Hw & Hfeed0 & _ & Hfeed & _).
  split; [exact Hclock|]. split; [exact Hw|].
  split; [vm_compute; reflexivity|].
  rewrite <- Hfeed0. exact Hfeed.
Defined.

Lemma updater_round_stops_witness :
  let rw := rs_registry started_registry in
  let h := rs_heap started_registry in
  rw_updateScope rw = 0%nat
  /\ (updater_round (2000 * Second) (2000 * Second)
        (h, Unsubscribe (Subscribe rw).1)).2 = true
  /\ (updater_round (2000 * Second) (2000 * Second)
        (h, (Subscribe rw).1)).2 = false.
Proof.
  intros rw h.
  assert (Hzero : rw_updateScope rw = 0%nat) by (vm_compute; reflexivity).
  destruct (updater_round_stops (2000 * Second) (2000 * Second) h rw)
    as (_ & _ & _ & _ & Hcancel).
  split; [exact Hzero|]. split; [exact (proj1 (Hcancel Hzero))|].
  vm_compute. reflexivity.
Defined.

Lemma NewVeriteemWallet_account_URLs_witness :
  zeroTime + refreshThrottling <= 1000 * Second
  /\ exists w : wallet (VeriteemDriver * bool),
       (NewVeriteemWallet true (1000 * Second) (1000 * Second)).1 !! 0%nat
       = Some w
       /\ Forall (fun acct => Account_URL acct = w_url w)
            (wallet_Accounts w).2.
Proof.
  assert (Hclock : zeroTime + refreshThrottling <= 1000 * Second)
    by (vm_compute; discriminate).
  destruct (NewVeriteemWallet_account_URLs true (1000 * Second)
              (1000 * Second) Hclock) as (w & Hlook & _ & _ & Hurls).
  split; [exact Hclock|]. exists w. split; [exact Hlook|exact Hurls].
Defined.

(** The accounts the canned server lists, as the wallet returns them. *)
Example Veriteem_wallet_Accounts :
  (wallet_Accounts
     (new_wallet wallet_url (newVeriteemDriver sample_server, true))).2
  = [alice; bob].
Proof. reflexivity. Qed.

(** ** The throttling guard and the second heartbeat goroutine *)

Section Throttle.
Context {D : Type}.

(** X24. The guard of [refreshWallets] is exact for every pair of times,
    also where their difference does not fit a [Duration] and [time.Since]
    saturates (the zero time stamp of a new registry): the call refreshes,
    setting the time stamp to the current time, exactly when the clock is
    at least 500 ms past the last refresh, the boundary included; up to one
    nanosecond before that, and when the clock reads earlier than the last
    refresh, it changes nothing. *)
Theorem refreshWallets_guard_exact (now1 now2 : Time) (h : @heap D)
    (rw : RemoteWallet D) :
  (rw_refreshed rw + 500 * Millisecond <= now1 ->
   rw_refreshed (refreshWallets now1 now2 (h, rw)).2 = now2)
  /\ (now1 < rw_refreshed rw + 500 * Millisecond ->
      refreshWallets now1 now2 (h, rw) = (h, rw)).
Proof.
  assert (Hguard : time_Since now1 (rw_refreshed rw) < 500 * Millisecond
                   <-> now1 < rw_refreshed rw + 500 * Millisecond).
  { unfold time_Since. change (500 * Millisecond) with refreshThrottling.
    rewrite (Time_Sub_lt _ _ _ refreshThrottling_range). lia. }
  split; intros Hclock; rewrite refreshWallets_cases.
  - rewrite (proj2 (scans_true now1 rw)) by (rewrite Hguard; lia).
    destruct (rw_wallets rw); reflexivity.
  - rewrite (proj2 (scans_false now1 rw)) by (apply Hguard; exact Hclock).
    reflexivity.
Qed.

End Throttle.

Section SecondGoroutine.
Context {D : Type} `{!driver D}.

(** X25. After a failed heartbeat has torn the wallet down, its goroutine
    is still in the [select] and [Open] is accepted again: if the driver
    opens, a second heartbeat goroutine is started beside the first.
    [Close] is then answered by one of them, and sets [healthQuit] to
    [nil]; while it stays [nil], the other goroutine does not return. *)
Theorem heartbeat_failure_then_Open (w : wallet D) (n : nat) (d d3 : D)
    (e : error) (q hq errc : chan) (self : nat) (passphrase : string)
    (evs : list select_outcome) :
  w_commsLock w = Some (Datatypes.S n) ->
  w_healthQuit w = Some q ->
  driver_Heartbeat (w_driver w) = (d, Some e) ->
  driver_Open passphrase (driver_Close d).1 = (d3, None) ->
  let w1 := (heartbeat [heartbeatCycle_elapsed] w).1.1 in
  let w2 := (wallet_Open_locked self hq passphrase w1).1.1 in
  (heartbeat [heartbeatCycle_elapsed] w).1.2 = task_in_select
  /\ wallet_Open [(heartbeat [heartbeatCycle_elapsed] w).1.2] self hq
       passphrase w1
     = Some (wallet_Open_locked self hq passphrase w1)
  /\ (wallet_Open_locked self hq passphrase w1).1.2 = None
  /\ In go_heartbeat (wallet_Open_locked self hq passphrase w1).2
  /\ w_healthQuit w2 = Some hq
  /\ exists w3,
       wallet_Close errc (heartbeat_handshake []) w2 = Some (w3, None)
       /\ w_healthQuit w3 = None
       /\ (heartbeat evs w3).1.2 <> task_returned.
Proof.
  intros Hc Hq Hd Hopen w1 w2.
  assert (Hrun : heartbeat [heartbeatCycle_elapsed] w
                 = ((wallet_close
                       (set_commsLock (Some (Datatypes.S n))
                          (set_driver d (CallHeartbeat (Some e))
                             (set_commsLock (Some n) w)))).1,
                    task_in_select, [])).
  { unfold heartbeat. rewrite !heartbeat_loop_unfold. simpl. rewrite Hc.
    simpl. rewrite Hd. reflexivity. }
  assert (Hw1p : w_paths w1 = None).
  { subst w1. rewrite Hrun, wallet_close_spec. reflexivity. }
  assert (Hw1d : w_driver w1 = (driver_Close d).1).
  { subst w1. rewrite Hrun, wallet_close_spec. reflexivity. }
  assert (Hopen1 : driver_Open passphrase (w_driver w1) = (d3, None))
    by (rewrite Hw1d; exact Hopen).
  assert (Hw2 : wallet_Open_locked self hq passphrase w1
                = (set_healthQuit (Some hq)
                     (set_paths (Some [])
                        (set_driver d3 (CallOpen passphrase None) w1)),
                   None,
                   [go_heartbeat;
                    go_updateFeed_Send
                      {| Wallet := self; Kind := WalletOpened |}]))
    by exact (wallet_Open_closed self hq passphrase w1 d3 None Hw1p Hopen1).
  split; [rewrite Hrun; reflexivity|].
  split; [rewrite Hrun; reflexivity|].
  split; [rewrite Hw2; reflexivity|].
  split; [rewrite Hw2; left; reflexivity|].
  assert (Hq2 : w_healthQuit w2 = Some hq)
    by (subst w2; rewrite Hw2; reflexivity).
  split; [exact Hq2|].
  exists (wallet_close (set_healthQuit None w2)).1.
  split.
  - unfold wallet_Close, heartbeat_handshake, heartbeat. rewrite Hq2.
    simpl. rewrite Hq2. rewrite bool_decide_eq_true_2 by reflexivity.
    rewrite wallet_close_spec. reflexivity.
  - assert (Hq3 : w_healthQuit (wallet_close (set_healthQuit None w2)).1
                  = None) by (rewrite wallet_close_spec; reflexivity).
    split; [exact Hq3|].
    exact (proj1 (heartbeat_without_healthQuit evs _ Hq3)).
Qed.

(** [Derive], [SignHash] and [SignHashWithPassphrase] are not supported:
    they leave the wallet as it is and do not reach the driver. *)
Lemma unsupported_operations (w : wallet D) (path : DerivationPath)
    (pin : bool) (account : Account) (passphrase : string)
    (hash : list byte) :
  wallet_Derive path pin w = (w, (zeroAccount, Some ErrNotSupported))
  /\ wallet_SignHash account hash w = (w, ([], Some ErrNotSupported))
  /\ wallet_SignHashWithPassphrase account passphrase hash w
     = (w, ([], Some ErrNotSupported))
  /\ wallet_URL w = w_url w.
Proof. repeat split. Qed.

End SecondGoroutine.

Lemma refreshWallets_guard_exact_witness :
  let h := rs_heap started_registry in
  let rw := rs_registry started_registry in
  let edge := 1000 * Second + 500 * Millisecond in
  rw_refreshed rw + 500 * Millisecond <= edge
  /\ rw_refreshed (refreshWallets edge (edge + 7) (h, rw)).2 = edge + 7
  /\ edge - 1 < rw_refreshed rw + 500 * Millisecond
  /\ refreshWallets (edge - 1) (edge + 7) (h, rw) = (h, rw)
  /\ rw_refreshed empty_registry + 500 * Millisecond <= 0
  /\ rw_refreshed (refreshWallets 0 0 ([], empty_registry)).2 = 0.
Proof.
  intros h rw edge.
  assert (Hat : rw_refreshed rw + 500 * Millisecond <= edge)
    by (vm_compute; discriminate).
  assert (Hbefore : edge - 1 < rw_refreshed rw + 500 * Millisecond)
    by (vm_compute; reflexivity).
  assert (Hzero : rw_refreshed empty_registry + 500 * Millisecond <= 0)
    by (vm_compute; discriminate).
  split; [exact Hat|].
  split; [exact (proj1 (refreshWallets_guard_exact edge (edge + 7) h rw)
                   Hat)|].
  split; [exact Hbefore|].
  split; [exact (proj2 (refreshWallets_guard_exact (edge - 1) (edge + 7) h rw)
                   Hbefore)|].
  split; [exact Hzero|].
  exact (proj1 (refreshWallets_guard_exact 0 0 [] empty_registry) Hzero).
Defined.

Lemma heartbeat_failure_then_Open_witness :
  let w := set_commsLock (Some 1%nat)
             (open_wallet {| open_ret := None; close_ret := None;
                             heartbeat_ret := Some (library_error "timeout");
                             sign_ret := (common.zeroAddress, None, None);
                             accounts_ret := ([], None) |}) in
  let w1 := (heartbeat [heartbeatCycle_elapsed] w).1.1 in
  let w2 := (wallet_Open_locked 0 2%nat "" w1).1.1 in
  w_healthQuit w = Some 1%nat
  /\ (heartbeat [heartbeatCycle_elapsed] w).1.2 = task_in_select
  /\ (wallet_Open_locked 0 2%nat "" w1).2
     = [go_heartbeat;
        go_updateFeed_Send {| Wallet := 0; Kind := WalletOpened |}]
  /\ exists w3,
       wallet_Close 7%nat (heartbeat_handshake []) w2 = Some (w3, None)
       /\ (heartbeat [quit_request 9%nat] w3).1.2 <> task_returned.
Proof.
  intros w w1 w2.
  assert (Hc : w_commsLock w = Some 1%nat) by reflexivity.
  assert (Hq : w_healthQuit w = Some 1%nat) by reflexivity.
  assert (Hd : driver_Heartbeat (w_driver w)
               = (w_driver w, Some (library_error "timeout")))
    by reflexivity.
  assert (Ho : driver_Open "" (driver_Close (w_driver w)).1
               = (w_driver w, None)) by reflexivity.
  destruct (heartbeat_failure_then_Open w 0 (w_driver w) (w_driver w)
              (library_error "timeout") 1%nat 2%nat 7%nat 0 ""
              [quit_request 9%nat] Hc Hq Hd Ho)
    as (Hsel & _ & _ & _ & _ & w3 & Hclose & _ & Hleak).
  split; [exact Hq|]. split; [exact Hsel|]. split; [reflexivity|].
  exists w3. split; [exact Hclose|exact Hleak].
Defined.
